(** * Vehicle damage detector (app.py): a shallow embedding and its properties

    The application is one Streamlit script.  Streamlit runs the whole script
    from top to bottom on every user interaction, so one interaction is one
    run of [script] below.  The script talks to the local file system, to
    the random source behind [uuid.uuid4], to the detection library (YOLO),
    to the imaging library (PIL) and to the Streamlit front end.  The file
    system is modelled as a finite map from paths to directories and files;
    what the other parties answer in one run is an [environment]; and every
    element drawn and every call that leaves the script is recorded in a
    log, in program order.  Python exceptions are outcomes of the script's
    monad. *)

From Stdlib Require Import ZArith String Ascii Strings.Byte List Lia Bool.
From stdpp Require Import base option gmap strings pretty.

Import ListNotations.
Local Open Scope string_scope.
Local Open Scope list_scope.
Local Open Scope Z_scope.

(** ** Python strings

    The methods and slices of [str] that the library functions below use. *)

Module Str.

(** [s[:n]] *)
Fixpoint take (n : nat) (s : string) : string :=
  match n, s with
  | S n', String c s' => String c (take n' s')
  | _, _ => ""
  end.

(** [s[n:]] *)
Fixpoint drop (n : nat) (s : string) : string :=
  match n, s with
  | S n', String _ s' => drop n' s'
  | _, _ => s
  end.

(** [s[i:i+1]]: the character at index [i], when there is one. *)
Fixpoint at_index (i : nat) (s : string) : option ascii :=
  match s with
  | EmptyString => None
  | String c s' => match i with O => Some c | S i' => at_index i' s' end
  end.

(** [s.rfind(c)]: the highest index holding [c], or -1. *)
Fixpoint rfind (c : ascii) (s : string) : Z :=
  match s with
  | EmptyString => -1
  | String a s' =>
      let r := rfind c s' in
      if 0 <=? r then r + 1
      else if Ascii.eqb a c then 0 else -1
  end.

(** [s.startswith(c)] and [s.endswith(c)] for a one-character [c]. *)
Definition startswith (c : ascii) (s : string) : bool :=
  match s with
  | String a _ => Ascii.eqb a c
  | EmptyString => false
  end.

Fixpoint endswith (c : ascii) (s : string) : bool :=
  match s with
  | EmptyString => false
  | String a EmptyString => Ascii.eqb a c
  | String _ s' => endswith c s'
  end.

(** [c in s] *)
Fixpoint contains (c : ascii) (s : string) : bool :=
  match s with
  | EmptyString => false
  | String a s' => Ascii.eqb a c || contains c s'
  end.

End Str.

(** ** [os.path] on a POSIX host

    After [posixpath] and [genericpath] of the Python standard library. *)

Module os_path.

Definition sep : ascii := "/"%char.
Definition extsep : ascii := "."%char.

(** The [while] loop of [genericpath._splitext]: it looks for a character
    other than a dot between the last separator and the last dot.  [fuel]
    bounds the iterations; the caller passes the width of that range. *)
Fixpoint splitext_scan (p : string) (dotIndex : Z) (fuel : nat)
         (filenameIndex : Z) : option (string * string) :=
  match fuel with
  | O => None
  | S fuel' =>
      if filenameIndex <? dotIndex then
        match Str.at_index (Z.to_nat filenameIndex) p with
        | Some c =>
            if Ascii.eqb c extsep
            then splitext_scan p dotIndex fuel' (filenameIndex + 1)
            else Some (Str.take (Z.to_nat dotIndex) p,
                       Str.drop (Z.to_nat dotIndex) p)
        | None =>
            Some (Str.take (Z.to_nat dotIndex) p,
                  Str.drop (Z.to_nat dotIndex) p)
        end
      else None
  end.

(** [os.path.splitext(p)] *)
Definition splitext (p : string) : string * string :=
  let sepIndex := Str.rfind sep p in
  let dotIndex := Str.rfind extsep p in
  if sepIndex <? dotIndex then
    match splitext_scan p dotIndex (Z.to_nat (dotIndex - (sepIndex + 1)))
                        (sepIndex + 1) with
    | Some r => r
    | None => (p, "")
    end
  else (p, "").

(** [os.path.join(a, b)] *)
Definition join (a b : string) : string :=
  if Str.startswith sep b then b
  else if (String.length a =? 0)%nat || Str.endswith sep a then a +:+ b
  else a +:+ String sep b.

End os_path.

(** ** [uuid.uuid4] and [str] of a UUID

    After the [uuid] module of the Python standard library: [uuid4] is
    [UUID(bytes=os.urandom(16), version=4)]. *)

Module uuid.

Definition hexdigits : list ascii := list_ascii_of_string "0123456789abcdef".

Definition hexdigit (n : Z) : ascii := nth (Z.to_nat n) hexdigits "0"%char.

(** The [i]-th hexadecimal digit of [z], counted from the least
    significant one. *)
Definition nibble (z : Z) (i : nat) : Z :=
  Z.land (Z.shiftr z (4 * Z.of_nat i)) 15.

(** ['%032x' % z] for a 128-bit [z]: thirty-two digits, most significant
    first. *)
Definition hex32 (z : Z) : string :=
  string_of_list_ascii (map (fun i => hexdigit (nibble z i)) (rev (seq 0 32))).

(** [UUID.__init__(..., version=4)]: the variant and version bits are
    overwritten. *)
Definition set_version4 (int : Z) : Z :=
  let int := Z.land int (Z.lnot (Z.shiftl 0xc000 48)) in
  let int := Z.lor int (Z.shiftl 0x8000 48) in
  let int := Z.land int (Z.lnot (Z.shiftl 0xf000 64)) in
  Z.lor int (Z.shiftl 4 76).

(** [uuid.uuid4()], given the integer read from [os.urandom(16)]. *)
Definition uuid4 (urandom16 : Z) : Z := set_version4 urandom16.

(** [str(u)]: the digits grouped 8-4-4-4-12. *)
Definition str (u : Z) : string :=
  let hex := hex32 u in
  Str.take 8 hex +:+ "-" +:+
  Str.take 4 (Str.drop 8 hex) +:+ "-" +:+
  Str.take 4 (Str.drop 12 hex) +:+ "-" +:+
  Str.take 4 (Str.drop 16 hex) +:+ "-" +:+
  Str.drop 20 hex.

End uuid.

(** ** Exceptions, the file system, the log *)

(** A Python exception object, as far as the script can tell exceptions
    apart: whether [except Exception] matches it (it does not match
    [SystemExit], [KeyboardInterrupt] and the other classes that derive from
    [BaseException] only), and its text [str(e)]. *)
Record exception := {
  isinstance_Exception : bool;
  exc_str : string
}.

Definition IndexError : exception :=
  {| isinstance_Exception := true; exc_str := "list index out of range" |}.

Definition FileExistsError (p : string) : exception :=
  {| isinstance_Exception := true;
     exc_str := "[Errno 17] File exists: '" +:+ p +:+ "'" |}.

Definition IsADirectoryError (p : string) : exception :=
  {| isinstance_Exception := true;
     exc_str := "[Errno 21] Is a directory: '" +:+ p +:+ "'" |}.

Definition FileNotFoundError (p : string) : exception :=
  {| isinstance_Exception := true;
     exc_str := "[Errno 2] No such file or directory: '" +:+ p +:+ "'" |}.

Definition NotADirectoryError (p : string) : exception :=
  {| isinstance_Exception := true;
     exc_str := "[Errno 20] Not a directory: '" +:+ p +:+ "'" |}.

(** What a call does: it returns a value or raises. *)
Inductive outcome (A : Type) : Type :=
| Returned (a : A)
| Raised (e : exception).
Arguments Returned {A} a.
Arguments Raised {A} e.

(** What sits at a path. *)
Inductive node : Type :=
| Dir
| File (content : list byte).

(** Where a Streamlit element is drawn. *)
Inductive container : Type := Page | Sidebar | Col1 | Col2.

(** The Streamlit elements the script draws. *)
Inductive element : Type :=
| title (body : string)
| write (body : string)
| caption (body : string)
| subheader (body : string)
| info (body : string)
| success (body : string)
| error (body : string)
| image (path caption : string)
| file_uploader (label : string) (type : list string)
| button (label : string)
| spinner (text : string).

(** One entry of the log: an element shown to the user, or a call that
    left the script. *)
Inductive event : Type :=
| set_page_config
| markdown_style
| shown (c : container) (e : element)
| spinner_done
| call_makedirs (p : string)
| call_exists (p : string)
| call_open_wb (p : string)
| call_YOLO (p : string)
| call_predict (p : string)
| call_plot
| call_save (p : string).

Record world := {
  fs : gmap string node;
  log : list event
}.

(** ** The script's monad: state, and Python exceptions *)

Definition M (A : Type) : Type := world -> outcome A * world.

Definition ret {A} (a : A) : M A := fun w => (Returned a, w).

Definition bind {A B} (m : M A) (k : A -> M B) : M B :=
  fun w =>
    match m w with
    | (Returned a, w') => k a w'
    | (Raised e, w') => (Raised e, w')
    end.

Notation "x <- m ;; k" := (bind m (fun x => k))
  (at level 100, m at next level, right associativity).
Notation "m ;; k" := (bind m (fun _ => k))
  (at level 100, right associativity).

Definition raise {A} (e : exception) : M A := fun w => (Raised e, w).

Definition emit (ev : event) : M unit :=
  fun w => (Returned tt, {| fs := fs w; log := log w ++ [ev] |}).

(** A call into a library: logged, then its outcome. *)
Definition call {A} (ev : event) (o : outcome A) : M A :=
  emit ev ;; match o with Returned a => ret a | Raised e => raise e end.

(** [try: body  except Exception as e: handler(e)] *)
Definition try_except_Exception (body : M unit) (handler : exception -> M unit)
  : M unit :=
  fun w =>
    match body w with
    | (Returned tt, w') => (Returned tt, w')
    | (Raised e, w') =>
        if isinstance_Exception e then handler e w' else (Raised e, w')
    end.

(** [with st.spinner(text): body]; the spinner goes away however the body
    ends. *)
Definition with_spinner (text : string) (body : M unit) : M unit :=
  fun w =>
    match (emit (shown Col1 (spinner text)) ;; body) w with
    | (r, w') => (r, {| fs := fs w'; log := log w' ++ [spinner_done] |})
    end.

(** ** The file system calls *)

(** [os.makedirs(p, exist_ok=True)] for a one-component path. *)
Definition makedirs_exist_ok (p : string) : M unit :=
  emit (call_makedirs p) ;;
  fun w =>
    match fs w !! p with
    | Some Dir => (Returned tt, w)
    | Some (File _) => (Raised (FileExistsError p), w)
    | None => (Returned tt, {| fs := <[p := Dir]> (fs w); log := log w |})
    end.

(** [os.path.exists(p)] *)
Definition exists_ (p : string) : M bool :=
  emit (call_exists p) ;;
  fun w => (Returned (bool_decide (is_Some (fs w !! p))), w).

(** The directory a path lies in: the text before its last separator.  A
    bare name lies in the working directory and a name right under the root
    in the root; those two are always there, and [parent] names neither. *)
Definition parent (p : string) : option string :=
  let i := Str.rfind os_path.sep p in
  if 0 <? i then Some (Str.take (Z.to_nat i) p) else None.

(** What keeps [open(p, "wb")] from reaching the file: the directory [p]
    lies in is missing, or is a regular file. *)
Definition open_wb_error (p : string) (files : gmap string node)
  : option exception :=
  match parent p with
  | Some d =>
      match files !! d with
      | Some Dir => None
      | Some (File _) => Some (NotADirectoryError p)
      | None => Some (FileNotFoundError p)
      end
  | None => None
  end.

(** Creating or truncating the file at [p] and writing [data] to it: the
    directory of [p] has to be there, and [p] itself must not be a
    directory. *)
Definition write_file (p : string) (data : list byte) : M unit :=
  fun w =>
    match open_wb_error p (fs w) with
    | Some e => (Raised e, w)
    | None =>
        match fs w !! p with
        | Some Dir => (Raised (IsADirectoryError p), w)
        | _ => (Returned tt, {| fs := <[p := File data]> (fs w); log := log w |})
        end
    end.

(** [with open(p, "wb") as f: f.write(data)] *)
Definition open_wb_write (p : string) (data : list byte) : M unit :=
  emit (call_open_wb p) ;; write_file p data.

(** ** Images and detection results *)

(** A [numpy] array of shape (height, width, channels) of [uint8]. *)
Definition ndarray : Type := list (list (list byte)).

(** [a[..., ::-1]]: the last axis reversed. *)
Definition reverse_last_axis (a : ndarray) : ndarray :=
  map (map (@rev byte)) a.

(** [a[i, j]]: the channel values of the pixel in row [i], column [j]. *)
Definition pixel (a : ndarray) (i j : nat) : option (list byte) :=
  match a !! i with
  | Some row => row !! j
  | None => None
  end.

(** A PIL image. *)
Record Image := { pixels : ndarray }.

Definition Image_fromarray (a : ndarray) : Image := {| pixels := a |}.

(** [xs[0]] on a Python list. *)
Definition getitem0 {A} (xs : list A) : M A :=
  match xs with
  | x :: _ => ret x
  | [] => raise IndexError
  end.

(** [str(n)] for a length. *)
Definition str_of_len (n : nat) : string := pretty n.

(** ** The detection library, the environment of one run *)

Section Script.

(** One detected region: a bounding box with a class label, a record of
    the detection library.  The script never looks inside one. *)
Variable Box : Type.

(** One entry of the list [model.predict] returns. *)
Record Results := {
  plot : outcome ndarray;      (* [r.plot()]: the annotated picture, BGR *)
  boxes : list Box             (* [r.boxes] *)
}.

(** A loaded model. *)
Record Model := {
  predict : string -> outcome (list Results)
}.

(** The file the user has put into the uploader. *)
Record UploadedFile := {
  name : string;
  getbuffer : list byte
}.

(** Everything one run of the script receives from outside. *)
Record environment := {
  app_dir : string;            (* [os.path.dirname(os.path.abspath(__file__))] *)
  urandom16 : Z;               (* the sixteen random bytes [uuid4] reads *)
  uploaded_file : option UploadedFile;     (* [st.file_uploader(...)] *)
  button_clicked : bool;       (* [st.button(...)] *)
  YOLO : string -> outcome Model;          (* [YOLO(path)] *)
  Image_save : Image -> string -> outcome (list byte);
                               (* [image.save(path)]: the bytes it encodes
                                  for [path], or what it raises before
                                  anything is written *)
  render_image : string -> outcome unit    (* [st.image(path)] reading [path] *)
}.

(** ** Paths *)

Definition MODEL_PATH (env : environment) : string :=
  os_path.join (app_dir env) "damage-detector.pt".
Definition UPLOAD_FOLDER : string := "uploads".
Definition RESULT_FOLDER : string := "results".

Definition file_ext (uf : UploadedFile) : string :=
  snd (os_path.splitext (name uf)).

Definition unique_filename (env : environment) (uf : UploadedFile) : string :=
  uuid.str (uuid.uuid4 (urandom16 env)) +:+ file_ext uf.

Definition input_path (env : environment) (uf : UploadedFile) : string :=
  os_path.join UPLOAD_FOLDER (unique_filename env uf).

Definition result_filename (env : environment) (uf : UploadedFile) : string :=
  "result_" +:+ unique_filename env uf.

Definition result_path (env : environment) (uf : UploadedFile) : string :=
  os_path.join RESULT_FOLDER (result_filename env uf).

(** ** Streamlit calls *)

Definition st (c : container) (e : element) : M unit := emit (shown c e).

(** [st.image(path, caption=...)]: the picture is read from [path]. *)
Definition st_image (env : environment) (c : container)
           (path caption : string) : M unit :=
  match render_image env path with
  | Returned _ => st c (image path caption)
  | Raised e => raise e
  end.

(** ** The script, block by block *)

(** Lines 8-49. *)
Definition page_setup : M unit :=
  emit set_page_config ;; emit markdown_style.

(** Lines 57-59. *)
Definition startup : M unit :=
  makedirs_exist_ok UPLOAD_FOLDER ;;
  makedirs_exist_ok RESULT_FOLDER.

(** Lines 62-81. *)
Definition sidebar : M unit :=
  st Sidebar (title "🚗 Damage AI") ;;
  st Sidebar (info "
        **Automated Vehicle Damage Detection**
        
        This system uses state-of-the-art Deep Learning (YOLOv8) to identify vehicle damages such as:
        - Dents
        - Scratches
        - Broken Glass
        - Smashes
        
        **How to use:**
        1. Upload an image.
        2. Wait for the analysis.
        3. View the results.
        ") ;;
  st Sidebar (write "---") ;;
  st Sidebar (caption "Powered by YOLOv8 & Streamlit").

(** Lines 112-143: the body of the [try]. *)
Definition detect (env : environment) (uf : UploadedFile) : M unit :=
  model <- call (call_YOLO (MODEL_PATH env)) (YOLO env (MODEL_PATH env)) ;;
  results <- call (call_predict (input_path env uf))
                  (predict model (input_path env uf)) ;;
  r0 <- getitem0 results ;;
  res_plotted <- call call_plot (plot r0) ;;
  let res_image := Image_fromarray (reverse_last_axis res_plotted) in
  data <- call (call_save (result_path env uf))
               (Image_save env res_image (result_path env uf)) ;;
  write_file (result_path env uf) data ;;
  st Col2 (subheader "2. Detection Results") ;;
  st_image env Col2 (result_path env uf) "Detected Damages" ;;
  r0' <- getitem0 results ;;
  let boxes := boxes r0' in
  if (0 <? length boxes)%nat
  then st Col2 (success ("Detected " +:+ str_of_len (length boxes) +:+ " issue(s)!"))
  else st Col2 (info "No visible damage detected.").

Definition model_missing_message (env : environment) : string :=
  "Model file not found at: " +:+ MODEL_PATH env +:+
  ". Please ensure 'damage-detector.pt' is in the project directory.".

Definition detection_error_message (e : exception) : string :=
  "Error during detection: " +:+ exc_str e.

(** Lines 106-146: what a click on the button runs. *)
Definition analyze (env : environment) (uf : UploadedFile) : M unit :=
  with_spinner "Analyzing image for damages..."
    (found <- exists_ (MODEL_PATH env) ;;
     if negb found
     then st Col1 (error (model_missing_message env))
     else try_except_Exception (detect env uf)
            (fun e => st Col1 (error (detection_error_message e)))).

(** Lines 94-146: an upload is present. *)
Definition upload_block (env : environment) (uf : UploadedFile) : M unit :=
  open_wb_write (input_path env uf) (getbuffer uf) ;;
  st_image env Col1 (input_path env uf) "Original Image" ;;
  st Col1 (button "Analyze Damage 🔍") ;;
  if button_clicked env then analyze env uf else ret tt.

(** Lines 84-151.  [st.columns] lays out [Col1] and [Col2] and draws
    nothing. *)
Definition main_content (env : environment) : M unit :=
  st Page (title "🛡️ Automated Vehicle Damage Detection") ;;
  st Page (write "### Upload a vehicle image to instantly detect visible damages.") ;;
  st Col1 (subheader "1. Upload Image") ;;
  st Col1 (file_uploader "Choose a file (JPG, PNG)" ["jpg"; "jpeg"; "png"]) ;;
  match uploaded_file env with
  | Some uf => upload_block env uf
  | None => st Col2 (info "Results will appear here after upload.")
  end.

(** One run of app.py. *)
Definition script (env : environment) : M unit :=
  page_setup ;;
  startup ;;
  sidebar ;;
  main_content env.

End Script.

Arguments plot {Box}.
Arguments boxes {Box}.
Arguments predict {Box}.
Arguments app_dir {Box}.
Arguments urandom16 {Box}.
Arguments uploaded_file {Box}.
Arguments button_clicked {Box}.
Arguments YOLO {Box}.
Arguments Image_save {Box}.
Arguments render_image {Box}.
Arguments MODEL_PATH {Box}.
Arguments unique_filename {Box}.
Arguments input_path {Box}.
Arguments result_filename {Box}.
Arguments result_path {Box}.
Arguments st_image {Box}.
Arguments detect {Box}.
Arguments model_missing_message {Box}.
Arguments analyze {Box}.
Arguments upload_block {Box}.
Arguments main_content {Box}.
Arguments script {Box}.

(** ** Runs and sessions *)

(** The world one run leaves behind, whether the run ended normally or with
    an exception. *)
Definition run {Box} (env : environment Box) (w : world) : world :=
  snd (script env w).

(** Streamlit runs the script once per interaction, on the world the
    previous run left. *)
Definition session {Box} (envs : list (environment Box)) (w : world) : world :=
  fold_left (fun w env => run env w) envs w.

(** The same environment with another detection library. *)
Definition with_YOLO {Box} (env : environment Box)
           (yolo : string -> outcome (Model Box)) : environment Box :=
  {| app_dir := app_dir env;
     urandom16 := urandom16 env;
     uploaded_file := uploaded_file env;
     button_clicked := button_clicked env;
     YOLO := yolo;
     Image_save := Image_save env;
     render_image := render_image env |}.

(** ** Reading the log *)

Definition is_call_YOLO (ev : event) : bool :=
  match ev with call_YOLO _ => true | _ => false end.

Definition is_call_predict (ev : event) : bool :=
  match ev with call_predict _ => true | _ => false end.

Definition is_call_plot (ev : event) : bool :=
  match ev with call_plot => true | _ => false end.

Definition is_call_open_wb (ev : event) : bool :=
  match ev with call_open_wb _ => true | _ => false end.

Definition is_call_save (ev : event) : bool :=
  match ev with call_save _ => true | _ => false end.

Definition is_error (ev : event) : bool :=
  match ev with shown _ (error _) => true | _ => false end.

(** The two messages that report a detection count. *)
Definition is_verdict (ev : event) : bool :=
  match ev with
  | shown _ (success _) => true
  | shown _ (info body) => String.eqb body "No visible damage detected."
  | _ => false
  end.

Definition count (f : event -> bool) (l : list event) : nat :=
  length (List.filter f l).

(** One event counts for one when it satisfies [f]. *)
Definition weight (f : event -> bool) (ev : event) : nat :=
  if f ev then 1%nat else 0%nat.

Arguments MODEL_PATH : simpl never.
Arguments input_path : simpl never.
Arguments result_path : simpl never.
Arguments unique_filename : simpl never.
Arguments str_of_len : simpl never.

(** The world in which the body of the [try] starts, the click handler
    having been entered in [w] with something at the model path. *)
Definition try_entry {Box} (env : environment Box) (w : world) : world :=
  {| fs := fs w;
     log := log w ++ [shown Col1 (spinner "Analyzing image for damages...");
                      call_exists (MODEL_PATH env)] |}.

(** ** What a block may do to the world *)

(** [m] only appends to the log, and at most [k] of the appended events
    satisfy [f]. *)
Definition appends_at_most {A} (f : event -> bool) (k : nat) (m : M A) : Prop :=
  forall w, exists evs, log (snd (m w)) = log w ++ evs /\ (count f evs <= k)%nat.

(** The file system [w'] has everything [w] had: directories stay
    directories, no path disappears, and a file whose path is not in
    [touched] keeps its content. *)
Definition fs_grows (touched : string -> Prop) (w w' : world) : Prop :=
  forall p,
    (fs w !! p = Some Dir -> fs w' !! p = Some Dir)
    /\ (is_Some (fs w !! p) -> is_Some (fs w' !! p))
    /\ (~ touched p -> forall c, fs w !! p = Some (File c) -> fs w' !! p = Some (File c)).

Definition keeps {A} (R : world -> world -> Prop) (m : M A) : Prop :=
  forall w, R w (snd (m w)).

(** The paths one run may write a file at. *)
Definition written_by {Box} (env : environment Box) (p : string) : Prop :=
  exists uf, uploaded_file env = Some uf
             /\ (p = input_path env uf \/ p = result_path env uf).

(** Two outcomes of [predict] that differ at most after the first entry of
    the list. *)
Definition same_first {Box} (o1 o2 : outcome (list (Results Box))) : Prop :=
  match o1, o2 with
  | Returned (r1 :: _), Returned (r2 :: _) => r1 = r2
  | Returned [], Returned [] => True
  | Raised e1, Raised e2 => e1 = e2
  | _, _ => False
  end.

(** Two outcomes of loading whose models predict alike up to the first
    entry. *)
Definition same_first_model {Box} (o1 o2 : outcome (Model Box)) : Prop :=
  match o1, o2 with
  | Returned m1, Returned m2 => forall p, same_first (predict m1 p) (predict m2 p)
  | Raised e1, Raised e2 => e1 = e2
  | _, _ => False
  end.

(** ** Sample runs *)

Module Sample.

(** A picture of one row and two pixels, each blue-green-red. *)
Definition picture : ndarray := [[[x01; x02; x03]; [x0a; x0b; x0c]]].

Definition dented : Results nat :=
  {| plot := Returned picture; boxes := [0%nat; 3%nat] |}.

Definition clean : Results nat :=
  {| plot := Returned picture; boxes := [] |}.

Definition model : Model nat :=
  {| predict := fun _ => Returned [dented; clean] |}.

(** A model whose list differs from [model]'s after the first entry. *)
Definition model' : Model nat :=
  {| predict := fun _ => Returned [dented] |}.

(** A model that finds nothing. *)
Definition model_clean : Model nat :=
  {| predict := fun _ => Returned [clean] |}.

(** A stand-in encoder: the pixel bytes in order. *)
Definition raw (img : Image) (path : string) : outcome (list byte) :=
  Returned (concat (concat (pixels img))).

Definition car : UploadedFile :=
  {| name := "car.JPG"; getbuffer := [xff; xd8; xff] |}.

Definition van : UploadedFile :=
  {| name := "van.JPG"; getbuffer := [x89; x50] |}.

Definition env : environment nat :=
  {| app_dir := "/srv/app";
     urandom16 := 0;
     uploaded_file := Some car;
     button_clicked := true;
     YOLO := fun _ => Returned model;
     Image_save := raw;
     render_image := fun _ => Returned tt |}.

(** The next interaction: another upload, no click, and the random source
    giving the sixteen bytes it gave before. *)
Definition env_again : environment nat :=
  {| app_dir := "/srv/app";
     urandom16 := 0;
     uploaded_file := Some van;
     button_clicked := false;
     YOLO := fun _ => Returned model;
     Image_save := raw;
     render_image := fun _ => Returned tt |}.

Definition SystemExit : exception :=
  {| isinstance_Exception := false; exc_str := "1" |}.

Definition RuntimeError : exception :=
  {| isinstance_Exception := true; exc_str := "CUDA out of memory" |}.

(** Loading the model ends in [SystemExit]. *)
Definition env_exit : environment nat :=
  with_YOLO env (fun _ => Raised SystemExit).

(** Prediction fails. *)
Definition env_failing : environment nat :=
  with_YOLO env (fun _ => Returned {| predict := fun _ => Raised RuntimeError |}).

(** A world with the model file in place, and one without. *)
Definition installed : world :=
  {| fs := {[ "/srv/app/damage-detector.pt" := File [] ]}; log := [] |}.

Definition bare : world := {| fs := ∅; log := [] |}.

(** The world an earlier run has left: the model file and the two folders. *)
Definition ready : world :=
  {| fs := {[ "/srv/app/damage-detector.pt" := File [];
              "uploads" := Dir; "results" := Dir ]};
     log := [] |}.

(** A world in which a directory has the name the next upload will get. *)
Definition blocked : world :=
  {| fs := {[ "uploads" := Dir;
              "uploads/00000000-0000-4000-8000-000000000000.JPG" := Dir ]};
     log := [] |}.

End Sample.

(** ** More ways to read the world *)

(** [os.path.isabs(p)] *)
Definition isabs (p : string) : bool := Str.startswith os_path.sep p.

(** Outside the paths in [T] the file system of [w'] is that of [w], absent
    paths included. *)
Definition fs_same_outside (T : string -> Prop) (w w' : world) : Prop :=
  forall p, ~ T p -> fs w' !! p = fs w !! p.

(** The paths one run may create or write: the two folders and the two
    generated file paths. *)
Definition touched_by {Box} (env : environment Box) (p : string) : Prop :=
  p = UPLOAD_FOLDER \/ p = RESULT_FOLDER \/ written_by env p.

Definition is_call_exists (ev : event) : bool :=
  match ev with call_exists _ => true | _ => false end.

Definition is_button (ev : event) : bool :=
  match ev with shown _ (button _) => true | _ => false end.

(** What an invocation tells the user at its end: a count or an error. *)
Definition is_feedback (ev : event) : bool := is_verdict ev || is_error ev.

(** ** More sample runs *)

Module Cases.

(** No file in the uploader. *)
Definition env_idle : environment nat :=
  {| app_dir := "/srv/app";
     urandom16 := 0;
     uploaded_file := None;
     button_clicked := false;
     YOLO := fun _ => Returned Sample.model;
     Image_save := Sample.raw;
     render_image := fun _ => Returned tt |}.

(** The upload of [Sample.env] again, with other random bytes and no
    click. *)
Definition env_rerun : environment nat :=
  {| app_dir := "/srv/app";
     urandom16 := 1;
     uploaded_file := Some Sample.car;
     button_clicked := false;
     YOLO := fun _ => Returned Sample.model;
     Image_save := Sample.raw;
     render_image := fun _ => Returned tt |}.

(** A model that returns an empty list. *)
Definition env_empty : environment nat :=
  with_YOLO Sample.env (fun _ => Returned {| predict := fun _ => Returned [] |}).

Definition OSError : exception :=
  {| isinstance_Exception := true; exc_str := "cannot identify image file" |}.

(** Pictures under [results/] cannot be shown; others can. *)
Definition env_no_result_view : environment nat :=
  {| app_dir := "/srv/app";
     urandom16 := 0;
     uploaded_file := Some Sample.car;
     button_clicked := true;
     YOLO := fun _ => Returned Sample.model;
     Image_save := Sample.raw;
     render_image := fun p => if String.prefix "results/" p
                              then Raised OSError else Returned tt |}.

(** No picture can be shown. *)
Definition env_no_view : environment nat :=
  {| app_dir := "/srv/app";
     urandom16 := 0;
     uploaded_file := Some Sample.car;
     button_clicked := true;
     YOLO := fun _ => Returned Sample.model;
     Image_save := Sample.raw;
     render_image := fun _ => Raised OSError |}.

(** A world in which a regular file has the name of the results folder. *)
Definition occupied : world :=
  {| fs := {[ "results" := File [x00] ]}; log := [] |}.

End Cases.

(** * Properties *)

(** ** The library functions on examples *)

Example splitext_jpg : os_path.splitext "car.jpg" = ("car", ".jpg").
Proof. reflexivity. Qed.

Example splitext_upper : os_path.splitext "Front Bumper.PNG" = ("Front Bumper", ".PNG").
Proof. reflexivity. Qed.

Example splitext_two_dots : os_path.splitext "a.tar.jpeg" = ("a.tar", ".jpeg").
Proof. reflexivity. Qed.

Example splitext_none : os_path.splitext "photo" = ("photo", "").
Proof. reflexivity. Qed.

Example splitext_hidden : os_path.splitext ".png" = (".png", "").
Proof. reflexivity. Qed.

Example splitext_dir_dot : os_path.splitext "a.b/c" = ("a.b/c", "").
Proof. reflexivity. Qed.

Example join_plain : os_path.join "uploads" "x.jpg" = "uploads/x.jpg".
Proof. reflexivity. Qed.

Example join_absolute : os_path.join "uploads" "/etc/x" = "/etc/x".
Proof. reflexivity. Qed.

Example uuid_zero :
  uuid.str (uuid.uuid4 0) = "00000000-0000-4000-8000-000000000000".
Proof. reflexivity. Qed.

Example uuid_ones :
  uuid.str (uuid.uuid4 (2 ^ 128 - 1)) = "ffffffff-ffff-4fff-bfff-ffffffffffff".
Proof. vm_compute. reflexivity. Qed.

(** Six of the 128 random bits are overwritten: two draws that differ only
    there give one UUID. *)
Example uuid4_forgets_bits : uuid.uuid4 0 = uuid.uuid4 (2 ^ 62 + 2 ^ 79).
Proof. reflexivity. Qed.

Example str_of_len_12 : str_of_len 12 = "12".
Proof. reflexivity. Qed.

(** An upload and a click, two regions found. *)
Example sample_upload :
  log (snd (upload_block Sample.env Sample.car Sample.ready)) =
    [call_open_wb "uploads/00000000-0000-4000-8000-000000000000.JPG";
     shown Col1 (image "uploads/00000000-0000-4000-8000-000000000000.JPG"
                       "Original Image");
     shown Col1 (button "Analyze Damage 🔍");
     shown Col1 (spinner "Analyzing image for damages...");
     call_exists "/srv/app/damage-detector.pt";
     call_YOLO "/srv/app/damage-detector.pt";
     call_predict "uploads/00000000-0000-4000-8000-000000000000.JPG";
     call_plot;
     call_save "results/result_00000000-0000-4000-8000-000000000000.JPG";
     shown Col2 (subheader "2. Detection Results");
     shown Col2 (image "results/result_00000000-0000-4000-8000-000000000000.JPG"
                       "Detected Damages");
     shown Col2 (success "Detected 2 issue(s)!");
     spinner_done].
Proof. vm_compute. reflexivity. Qed.

(** The same upload where the folders have not been made: [open] finds no
    [uploads] directory. *)
Example sample_upload_no_folder :
  upload_block Sample.env Sample.car Sample.installed =
    (Raised (FileNotFoundError "uploads/00000000-0000-4000-8000-000000000000.JPG"),
     {| fs := fs Sample.installed;
        log := [call_open_wb "uploads/00000000-0000-4000-8000-000000000000.JPG"] |}).
Proof. vm_compute. reflexivity. Qed.

(** A run without an upload. *)
Example sample_idle :
  last (log (run (Build_environment nat "/srv/app" 0 None false
                    (fun _ => Returned Sample.model) Sample.raw
                    (fun _ => Returned tt))
                 Sample.bare))
  = Some (shown Col2 (info "Results will appear here after upload.")).
Proof. vm_compute. reflexivity. Qed.

(** The same upload and click with a model that finds nothing. *)
Example sample_run_clean :
  last (log (snd (detect (with_YOLO Sample.env (fun _ => Returned Sample.model_clean))
                         Sample.car Sample.ready)))
  = Some (shown Col2 (info "No visible damage detected.")).
Proof. vm_compute. reflexivity. Qed.

(** ** Strings *)

Lemma string_app_cons (c : ascii) (s t : string) : String c s +:+ t = String c (s +:+ t).
Proof. reflexivity. Qed.

Lemma string_take_drop (n : nat) (s : string) : Str.take n s +:+ Str.drop n s = s.
Proof.
  revert s; induction n as [|n IH]; intros [|c s]; simpl; try reflexivity.
  rewrite string_app_cons. f_equal. apply IH.
Qed.

Lemma string_length_app (s t : string) :
  String.length (s +:+ t) = (String.length s + String.length t)%nat.
Proof.
  induction s as [|c s IH]; [reflexivity|].
  rewrite string_app_cons. simpl. now rewrite IH.
Qed.

(** Two concatenations with heads of one length agree piecewise. *)
Lemma string_app_eq_same_length (s1 s2 t1 t2 : string) :
  String.length s1 = String.length s2 ->
  s1 +:+ t1 = s2 +:+ t2 -> s1 = s2 /\ t1 = t2.
Proof.
  revert s2; induction s1 as [|c s1 IH]; intros [|d s2] Hlen Heq;
    try discriminate.
  - now split.
  - rewrite !string_app_cons in Heq. injection Heq as -> Heq. injection Hlen as Hlen.
    destruct (IH _ Hlen Heq) as [-> ->]. now split.
Qed.

Lemma string_contains_app (c : ascii) (s t : string) :
  Str.contains c (s +:+ t) = Str.contains c s || Str.contains c t.
Proof.
  induction s as [|a s IH]; [reflexivity|].
  rewrite string_app_cons. simpl. rewrite IH. now rewrite orb_assoc.
Qed.

Lemma str_app_assoc (s t u : string) : (s +:+ t) +:+ u = s +:+ (t +:+ u).
Proof.
  induction s as [|c s IH]; [reflexivity|].
  rewrite !string_app_cons. now f_equal.
Qed.

(** Cutting a concatenation where its first part ends. *)
Lemma take_app_length (s t : string) : Str.take (String.length s) (s +:+ t) = s.
Proof.
  induction s as [|c s IH]; [destruct t; reflexivity|].
  rewrite string_app_cons. cbn [String.length Str.take]. now rewrite IH.
Qed.

Lemma drop_app_length (s t : string) : Str.drop (String.length s) (s +:+ t) = t.
Proof.
  induction s as [|c s IH]; [destruct t; reflexivity|].
  rewrite string_app_cons. cbn [String.length Str.drop]. exact IH.
Qed.

Lemma at_index_app_length (s t : string) (c : ascii) :
  Str.at_index (String.length s) (s +:+ String c t) = Some c.
Proof.
  induction s as [|a s IH]; [reflexivity|].
  rewrite string_app_cons. cbn [String.length Str.at_index]. exact IH.
Qed.

(** ** UUID strings *)

Lemma hexdigit_in (n : Z) : In (uuid.hexdigit n) uuid.hexdigits.
Proof.
  unfold uuid.hexdigit.
  destruct (Nat.lt_ge_cases (Z.to_nat n) (length uuid.hexdigits)) as [Hlt|Hge].
  - now apply nth_In.
  - rewrite nth_overflow by exact Hge. simpl. now left.
Qed.

Lemma hexdigit_not_sep (n : Z) : Ascii.eqb (uuid.hexdigit n) os_path.sep = false.
Proof.
  pose proof (hexdigit_in n) as Hin. simpl in Hin.
  repeat (destruct Hin as [<-|Hin]; [reflexivity|]). contradiction.
Qed.

(** [str] of a UUID always has thirty-six characters. *)
Lemma uuid_str_length (u : Z) : String.length (uuid.str u) = 36%nat.
Proof. reflexivity. Qed.

Lemma uuid_str_startswith_sep (u : Z) (s : string) :
  Str.startswith os_path.sep (uuid.str u +:+ s) = false.
Proof. apply hexdigit_not_sep. Qed.

Lemma uuid_str_no_sep (u : Z) : Str.contains os_path.sep (uuid.str u) = false.
Proof.
  cbv [uuid.str uuid.hex32 seq rev map List.app string_of_list_ascii
       Str.take Str.drop String.append Str.contains].
  rewrite !hexdigit_not_sep. reflexivity.
Qed.

(** ** [rfind] and [splitext] *)

Lemma rfind_cons (c a : ascii) (s : string) :
  Str.rfind c (String a s) =
    if 0 <=? Str.rfind c s then Str.rfind c s + 1
    else if Ascii.eqb a c then 0 else -1.
Proof. reflexivity. Qed.

Lemma rfind_lower (c : ascii) (s : string) : -1 <= Str.rfind c s.
Proof.
  induction s as [|a s IH]; simpl; [lia|].
  destruct (0 <=? Str.rfind c s) eqn:Hr; [apply Z.leb_le in Hr; lia|].
  destruct (Ascii.eqb a c); lia.
Qed.

Lemma rfind_absent (c : ascii) (s : string) :
  Str.contains c s = false -> Str.rfind c s = -1.
Proof.
  induction s as [|a s IH]; simpl; [reflexivity|].
  intros H. apply orb_false_elim in H as [Ha Hs].
  rewrite (IH Hs), Ha. reflexivity.
Qed.

Lemma rfind_negative (c : ascii) (s : string) :
  Str.rfind c s < 0 -> Str.contains c s = false.
Proof.
  induction s as [|a s IH]; simpl; [reflexivity|].
  pose proof (rfind_lower c s) as Hlow.
  destruct (0 <=? Str.rfind c s) eqn:Hr.
  - apply Z.leb_le in Hr. lia.
  - apply Z.leb_gt in Hr. destruct (Ascii.eqb a c); [lia|].
    intros _. now rewrite (IH Hr).
Qed.

(** Past the last occurrence there is none. *)
Lemma drop_past_rfind (c : ascii) (s : string) (k : nat) :
  Str.rfind c s < Z.of_nat k -> Str.contains c (Str.drop k s) = false.
Proof.
  revert k; induction s as [|a s IH]; intros k Hk.
  - destruct k; reflexivity.
  - destruct k as [|k].
    + apply rfind_negative. simpl Z.of_nat in Hk. exact Hk.
    + simpl Str.drop. apply IH. simpl Str.rfind in Hk.
      pose proof (rfind_lower c s) as Hlow.
      destruct (0 <=? Str.rfind c s) eqn:Hr; [lia|].
      apply Z.leb_gt in Hr. lia.
Qed.

(** At the last occurrence the character stands, and none follows it. *)
Lemma drop_at_rfind (c : ascii) (s : string) :
  0 <= Str.rfind c s ->
  exists t, Str.drop (Z.to_nat (Str.rfind c s)) s = String c t
            /\ Str.contains c t = false.
Proof.
  induction s as [|a s IH]; simpl Str.rfind; [lia|].
  destruct (0 <=? Str.rfind c s) eqn:Hr.
  - intros _. apply Z.leb_le in Hr. destruct (IH Hr) as (t & Ht & Hc).
    exists t. split; [|exact Hc].
    replace (Z.to_nat (Str.rfind c s + 1)) with (S (Z.to_nat (Str.rfind c s))) by lia.
    exact Ht.
  - apply Z.leb_gt in Hr. destruct (Ascii.eqb a c) eqn:Ha; [|lia].
    intros _. apply Ascii.eqb_eq in Ha as ->.
    exists s. split; [reflexivity | now apply rfind_negative].
Qed.

(** The last occurrence is inside the string. *)
Lemma rfind_upper (c : ascii) (s : string) :
  Str.rfind c s < Z.of_nat (String.length s).
Proof.
  induction s as [|a s IH]; [simpl; lia|].
  rewrite rfind_cons. cbn [String.length].
  destruct (0 <=? Str.rfind c s); [lia|]. destruct (Ascii.eqb a c); lia.
Qed.

(** A tail without the character does not move its last occurrence. *)
Lemma rfind_app_absent (c : ascii) (s t : string) :
  Str.contains c t = false -> Str.rfind c (s +:+ t) = Str.rfind c s.
Proof.
  intros Ht. induction s as [|a s IH].
  - change ("" +:+ t) with t. now apply rfind_absent.
  - rewrite string_app_cons, !rfind_cons, IH. reflexivity.
Qed.

(** The character, followed by a tail without it, is the last occurrence. *)
Lemma rfind_app_last (c : ascii) (s t : string) :
  Str.contains c t = false ->
  Str.rfind c (s +:+ String c t) = Z.of_nat (String.length s).
Proof.
  intros Ht. induction s as [|a s IH].
  - change ("" +:+ String c t) with (String c t).
    rewrite rfind_cons, (rfind_absent _ _ Ht), Ascii.eqb_refl. reflexivity.
  - rewrite string_app_cons, rfind_cons, IH. cbn [String.length].
    destruct (0 <=? Z.of_nat (String.length s)) eqn:Hle; [lia|].
    apply Z.leb_gt in Hle. lia.
Qed.

Lemma splitext_scan_Some (p : string) (dotIndex : Z) (fuel : nat) (i : Z)
      (r : string * string) :
  os_path.splitext_scan p dotIndex fuel i = Some r ->
  r = (Str.take (Z.to_nat dotIndex) p, Str.drop (Z.to_nat dotIndex) p).
Proof.
  revert i; induction fuel as [|fuel IH]; intros i; simpl; [discriminate|].
  destruct (i <? dotIndex); [|discriminate].
  destruct (Str.at_index (Z.to_nat i) p) as [c|].
  - destruct (Ascii.eqb c os_path.extsep); [apply IH | congruence].
  - congruence.
Qed.

(** What [splitext] returns: the whole name and no extension, or the name
    cut at its last dot, that dot lying after the last separator. *)
Lemma splitext_cases (p : string) :
  os_path.splitext p = (p, "")
  \/ (Str.rfind os_path.sep p < Str.rfind os_path.extsep p
      /\ os_path.splitext p =
           (Str.take (Z.to_nat (Str.rfind os_path.extsep p)) p,
            Str.drop (Z.to_nat (Str.rfind os_path.extsep p)) p)).
Proof.
  unfold os_path.splitext.
  destruct (Str.rfind os_path.sep p <? Str.rfind os_path.extsep p) eqn:Hlt;
    [|now left].
  apply Z.ltb_lt in Hlt.
  destruct (os_path.splitext_scan _ _ _ _) as [r|] eqn:Hscan; [|now left].
  right. split; [exact Hlt|]. now apply splitext_scan_Some in Hscan.
Qed.

(** The two parts of [splitext] put together give the name back. *)
Lemma splitext_concat (p : string) :
  fst (os_path.splitext p) +:+ snd (os_path.splitext p) = p.
Proof.
  destruct (splitext_cases p) as [-> | [_ ->]]; simpl.
  - induction p as [|c p IH]; [reflexivity|]. rewrite string_app_cons. now f_equal.
  - apply string_take_drop.
Qed.

(** A name without a dot has no extension. *)
Lemma splitext_no_dot (p : string) :
  Str.contains os_path.extsep p = false -> os_path.splitext p = (p, "").
Proof.
  intros H. unfold os_path.splitext. rewrite (rfind_absent _ _ H).
  pose proof (rfind_lower os_path.sep p) as Hlow.
  destruct (Str.rfind os_path.sep p <? -1) eqn:Hlt; [|reflexivity].
  apply Z.ltb_lt in Hlt. lia.
Qed.

(** An extension is empty, or a dot followed by characters that are not
    dots. *)
Lemma splitext_ext_shape (p : string) :
  snd (os_path.splitext p) = ""
  \/ exists t, snd (os_path.splitext p) = String os_path.extsep t
               /\ Str.contains os_path.extsep t = false.
Proof.
  destruct (splitext_cases p) as [-> | [Hlt ->]]; [now left|right]. simpl.
  apply drop_at_rfind. pose proof (rfind_lower os_path.sep p). lia.
Qed.

(** An extension never holds a path separator. *)
Lemma splitext_ext_no_sep (p : string) :
  Str.contains os_path.sep (snd (os_path.splitext p)) = false.
Proof.
  destruct (splitext_cases p) as [-> | [Hlt ->]]; [reflexivity|]. simpl.
  apply drop_past_rfind. pose proof (rfind_lower os_path.sep p). lia.
Qed.

(** The loop of [splitext] stops at the latest at a character that is not a
    dot. *)
Lemma splitext_scan_finds (p : string) (dotIndex k : Z) (ch : ascii) (fuel : nat)
      (i : Z) :
  0 <= i -> i <= k -> k < dotIndex ->
  Str.at_index (Z.to_nat k) p = Some ch -> Ascii.eqb ch os_path.extsep = false ->
  (Z.to_nat (k - i) < fuel)%nat ->
  os_path.splitext_scan p dotIndex fuel i
  = Some (Str.take (Z.to_nat dotIndex) p, Str.drop (Z.to_nat dotIndex) p).
Proof.
  intros Hi Hik Hk Hat Hch. revert i Hi Hik.
  induction fuel as [|fuel IH]; intros i Hi Hik Hfuel; [lia|].
  cbn [os_path.splitext_scan].
  destruct (i <? dotIndex) eqn:Hlt; [|apply Z.ltb_ge in Hlt; lia].
  destruct (Str.at_index (Z.to_nat i) p) as [c'|] eqn:Hc'; [|reflexivity].
  destruct (Ascii.eqb c' os_path.extsep) eqn:Hdot; [|reflexivity].
  destruct (Z.eq_dec i k) as [->|Hne]; [congruence|].
  apply IH; lia.
Qed.

(** A name whose last component has a character other than a dot before
    its last dot is cut at that dot: what follows the dot, with the dot, is
    the extension, character for character. *)
Lemma splitext_ext (a b t : string) (c : ascii) :
  c <> os_path.extsep ->
  Str.contains os_path.sep (String c b) = false ->
  Str.contains os_path.extsep t = false ->
  Str.contains os_path.sep t = false ->
  os_path.splitext ((a +:+ String c b) +:+ String os_path.extsep t)
  = (a +:+ String c b, String os_path.extsep t).
Proof.
  intros Hc Hcb Hdot Hsep. unfold os_path.splitext.
  rewrite (rfind_app_last os_path.extsep (a +:+ String c b) t Hdot).
  assert (Hs : Str.rfind os_path.sep ((a +:+ String c b) +:+ String os_path.extsep t)
               = Str.rfind os_path.sep a).
  { rewrite str_app_assoc. apply rfind_app_absent.
    rewrite string_contains_app, Hcb. cbn [Str.contains orb].
    rewrite Hsep. reflexivity. }
  rewrite Hs. rewrite string_length_app. cbn [String.length].
  pose proof (rfind_lower os_path.sep a) as Hlow.
  pose proof (rfind_upper os_path.sep a) as Hup.
  destruct (Str.rfind os_path.sep a
            <? Z.of_nat (String.length a + S (String.length b))) eqn:Hlt;
    [|apply Z.ltb_ge in Hlt; lia].
  rewrite (splitext_scan_finds _ _ (Z.of_nat (String.length a)) c).
  - rewrite Nat2Z.id.
    replace (String.length a + S (String.length b))%nat
      with (String.length (a +:+ String c b))
      by (rewrite string_length_app; reflexivity).
    now rewrite take_app_length, drop_app_length.
  - lia.
  - lia.
  - lia.
  - rewrite Nat2Z.id, str_app_assoc, string_app_cons. apply at_index_app_length.
  - now apply Ascii.eqb_neq.
  - lia.
Qed.

(** ** The paths the script builds *)

Lemma unique_filename_no_sep {Box} (env : environment Box) (uf : UploadedFile) :
  Str.contains os_path.sep (unique_filename env uf) = false.
Proof.
  unfold unique_filename, file_ext.
  now rewrite string_contains_app, uuid_str_no_sep, splitext_ext_no_sep.
Qed.

(** The upload goes straight into [uploads/]. *)
Lemma input_path_eq {Box} (env : environment Box) (uf : UploadedFile) :
  input_path env uf = "uploads/" +:+ unique_filename env uf.
Proof.
  unfold input_path, os_path.join, unique_filename.
  now rewrite uuid_str_startswith_sep.
Qed.

(** The result goes straight into [results/], under the upload's name with
    [result_] in front. *)
Lemma result_path_eq {Box} (env : environment Box) (uf : UploadedFile) :
  result_path env uf = "results/result_" +:+ unique_filename env uf.
Proof. reflexivity. Qed.

Lemma input_path_ne_result_path {Box} (env env' : environment Box)
      (uf uf' : UploadedFile) :
  input_path env uf <> result_path env' uf'.
Proof. rewrite input_path_eq, result_path_eq. discriminate. Qed.

Lemma input_path_not_folder {Box} (env : environment Box) (uf : UploadedFile) :
  input_path env uf <> UPLOAD_FOLDER /\ input_path env uf <> RESULT_FOLDER.
Proof. rewrite input_path_eq. split; discriminate. Qed.

Lemma result_path_not_folder {Box} (env : environment Box) (uf : UploadedFile) :
  result_path env uf <> UPLOAD_FOLDER /\ result_path env uf <> RESULT_FOLDER.
Proof. rewrite result_path_eq. split; discriminate. Qed.

(** A name without a separator, put after a separator, lies in the
    directory named before that separator. *)
Lemma parent_app (d n : string) :
  d <> "" -> Str.contains os_path.sep n = false ->
  parent (d +:+ String os_path.sep n) = Some d.
Proof.
  intros Hd Hn. unfold parent. rewrite (rfind_app_last _ _ _ Hn), Nat2Z.id.
  destruct d as [|c d]; [congruence|].
  destruct (0 <? Z.of_nat (String.length (String c d))) eqn:Hlt;
    [|apply Z.ltb_ge in Hlt; cbn [String.length] in Hlt; lia].
  now rewrite take_app_length.
Qed.

(** The upload lies in [uploads], the result in [results]. *)
Lemma parent_input_path {Box} (env : environment Box) (uf : UploadedFile) :
  parent (input_path env uf) = Some UPLOAD_FOLDER.
Proof.
  rewrite input_path_eq. generalize (unique_filename_no_sep env uf).
  generalize (unique_filename env uf). intros n Hn.
  exact (parent_app "uploads" n ltac:(discriminate) Hn).
Qed.

Lemma parent_result_path {Box} (env : environment Box) (uf : UploadedFile) :
  parent (result_path env uf) = Some RESULT_FOLDER.
Proof.
  rewrite result_path_eq. generalize (unique_filename_no_sep env uf).
  generalize (unique_filename env uf). intros n Hn.
  apply (parent_app "results" ("result_" +:+ n)); [discriminate|].
  rewrite string_contains_app, Hn. reflexivity.
Qed.

(** ** Opening a file for writing *)

(** Nothing keeps [open] from a path whose directory is there. *)
Lemma open_wb_error_dir (p d : string) (files : gmap string node) :
  parent p = Some d -> files !! d = Some Dir -> open_wb_error p files = None.
Proof. unfold open_wb_error. now intros -> ->. Qed.

(** Without the directory, [open] raises. *)
Lemma open_wb_error_missing (p d : string) (files : gmap string node) :
  parent p = Some d -> files !! d = None ->
  open_wb_error p files = Some (FileNotFoundError p).
Proof. unfold open_wb_error. now intros -> ->. Qed.

(** The generated paths can be opened once their folders are there. *)
Lemma open_input_path {Box} (env : environment Box) (uf : UploadedFile)
      (files : gmap string node) :
  files !! UPLOAD_FOLDER = Some Dir -> open_wb_error (input_path env uf) files = None.
Proof. apply open_wb_error_dir, parent_input_path. Qed.

Lemma open_result_path {Box} (env : environment Box) (uf : UploadedFile)
      (files : gmap string node) :
  files !! RESULT_FOLDER = Some Dir -> open_wb_error (result_path env uf) files = None.
Proof. apply open_wb_error_dir, parent_result_path. Qed.

(** ** The monad *)

Ltac run_M :=
  cbv beta iota delta [bind call emit ret raise getitem0 write_file st st_image
                       try_except_Exception with_spinner exists_ open_wb_write
                       makedirs_exist_ok];
  cbn [fs log fst snd].

Tactic Notation "run_M" "in" hyp(H) :=
  cbv beta iota delta [bind call emit ret raise getitem0 write_file st st_image
                       try_except_Exception with_spinner exists_ open_wb_write
                       makedirs_exist_ok] in H;
  cbn [fs log fst snd] in H.

(** ** The body of the [try] *)

(** When the body ends without an exception, every call in it returned, and
    the world it leaves is the one below. *)
Lemma detect_returned_inv {Box} (env : environment Box) (uf : UploadedFile)
      (w w' : world) :
  detect env uf w = (Returned tt, w') ->
  exists m r rest arr data,
    YOLO env (MODEL_PATH env) = Returned m
    /\ predict m (input_path env uf) = Returned (r :: rest)
    /\ plot r = Returned arr
    /\ Image_save env (Image_fromarray (reverse_last_axis arr))
                      (result_path env uf) = Returned data
    /\ fs w !! result_path env uf <> Some Dir
    /\ render_image env (result_path env uf) = Returned tt
    /\ w' = {| fs := <[result_path env uf := File data]> (fs w);
               log := log w ++
                 [call_YOLO (MODEL_PATH env);
                  call_predict (input_path env uf);
                  call_plot;
                  call_save (result_path env uf);
                  shown Col2 (subheader "2. Detection Results");
                  shown Col2 (image (result_path env uf) "Detected Damages");
                  shown Col2
                    (if (0 <? length (boxes r))%nat
                     then success ("Detected " +:+ str_of_len (length (boxes r))
                                   +:+ " issue(s)!")
                     else info "No visible damage detected.")] |}.
Proof.
  unfold detect.
  destruct (YOLO env (MODEL_PATH env)) as [m|e] eqn:Hm; run_M;
    [|intros H; discriminate H].
  destruct (predict m (input_path env uf)) as [[|r rest]|e] eqn:Hp; run_M;
    [intros H; discriminate H| |intros H; discriminate H].
  destruct (plot r) as [arr|e] eqn:Hplot; run_M; [|intros H; discriminate H].
  destruct (Image_save env _ _) as [data|e] eqn:Hsave; run_M;
    [|intros H; discriminate H].
  destruct (open_wb_error (result_path env uf) (fs w)) as [e|]; run_M;
    [intros H; discriminate H|].
  destruct (fs w !! result_path env uf) as [[|c]|] eqn:Hfs; run_M;
    [intros H; discriminate H| |].
  all: destruct (render_image env (result_path env uf)) as [[]|e] eqn:Hr;
    run_M; [|intros H; discriminate H].
  all: intros H; exists m, r, rest, arr, data.
  all: repeat (split; [congruence|]).
  all: destruct (0 <? length (boxes r))%nat; injection H as <-;
    rewrite <- !app_assoc; reflexivity.
Qed.

(** Conversely, when every call returns, the results folder is there and
    no directory sits at the result path, the body ends without an
    exception. *)
Lemma detect_returns {Box} (env : environment Box) (uf : UploadedFile)
      (w : world) m r rest arr data :
  YOLO env (MODEL_PATH env) = Returned m ->
  predict m (input_path env uf) = Returned (r :: rest) ->
  plot r = Returned arr ->
  Image_save env (Image_fromarray (reverse_last_axis arr))
             (result_path env uf) = Returned data ->
  fs w !! RESULT_FOLDER = Some Dir ->
  fs w !! result_path env uf <> Some Dir ->
  render_image env (result_path env uf) = Returned tt ->
  fst (detect env uf w) = Returned tt.
Proof.
  intros Hm Hp Hplot Hsave Hpar Hfs Hr. unfold detect.
  run_M. rewrite Hm. run_M. rewrite Hp. run_M. rewrite Hplot. run_M.
  rewrite Hsave. run_M. rewrite (open_result_path env uf _ Hpar).
  destruct (fs w !! result_path env uf) as [[|c]|]; [congruence| |];
    run_M; rewrite Hr; run_M;
    destruct (0 <? length (boxes r))%nat; reflexivity.
Qed.

(** ** Rules for [keeps] *)

Section Keeps.

Variable R : world -> world -> Prop.
Hypothesis R_refl : forall w, R w w.
Hypothesis R_trans : forall w1 w2 w3, R w1 w2 -> R w2 w3 -> R w1 w3.
(** [R] does not look at the log. *)
Hypothesis R_log : forall w l, R w {| fs := fs w; log := l |}.

Lemma keeps_ret {A} (a : A) : keeps R (ret a).
Proof. intros w. apply R_refl. Qed.

Lemma keeps_raise {A} (e : exception) : keeps R (@raise A e).
Proof. intros w. apply R_refl. Qed.

Lemma keeps_emit (ev : event) : keeps R (emit ev).
Proof. intros w. apply R_log. Qed.

Lemma keeps_bind {A B} (m : M A) (k : A -> M B) :
  keeps R m -> (forall a, keeps R (k a)) -> keeps R (bind m k).
Proof.
  intros Hm Hk w. unfold bind. specialize (Hm w).
  destruct (m w) as [[a|e] w1]; simpl in *; [|exact Hm].
  eapply R_trans; [exact Hm | apply Hk].
Qed.

Lemma keeps_call {A} (ev : event) (o : outcome A) : keeps R (call ev o).
Proof.
  unfold call. apply keeps_bind; [apply keeps_emit|].
  intros _. destruct o; [apply keeps_ret | apply keeps_raise].
Qed.

Lemma keeps_getitem0 {A} (xs : list A) : keeps R (getitem0 xs).
Proof. destruct xs; [apply keeps_raise | apply keeps_ret]. Qed.

Lemma keeps_st (c : container) (e : element) : keeps R (st c e).
Proof. apply keeps_emit. Qed.

Lemma keeps_st_image {Box} (env : environment Box) c path cap :
  keeps R (st_image env c path cap).
Proof.
  unfold st_image. destruct (render_image env path);
    [apply keeps_st | apply keeps_raise].
Qed.

Lemma keeps_exists (p : string) : keeps R (exists_ p).
Proof.
  unfold exists_. apply keeps_bind; [apply keeps_emit|].
  intros _ w. apply R_refl.
Qed.

Lemma keeps_try (body : M unit) (handler : exception -> M unit) :
  keeps R body -> (forall e, keeps R (handler e)) ->
  keeps R (try_except_Exception body handler).
Proof.
  intros Hb Hh w. unfold try_except_Exception. specialize (Hb w).
  destruct (body w) as [[[]|e] w1]; simpl in *; [exact Hb|].
  destruct (isinstance_Exception e); [|exact Hb].
  eapply R_trans; [exact Hb | apply Hh].
Qed.

Lemma keeps_spinner (text : string) (body : M unit) :
  keeps R body -> keeps R (with_spinner text body).
Proof.
  intros Hb w. unfold with_spinner.
  pose proof (keeps_bind (emit (shown Col1 (spinner text))) (fun _ => body)
                (keeps_emit _) (fun _ => Hb) w) as H.
  destruct (bind _ _ w) as [r w1]; simpl in *.
  eapply R_trans; [exact H | apply R_log].
Qed.

End Keeps.

(** ** Rules for [fs_grows] *)

Lemma fs_grows_refl (T : string -> Prop) (w : world) : fs_grows T w w.
Proof. intros p. auto. Qed.

Lemma fs_grows_trans (T : string -> Prop) (w1 w2 w3 : world) :
  fs_grows T w1 w2 -> fs_grows T w2 w3 -> fs_grows T w1 w3.
Proof.
  intros H12 H23 p. destruct (H12 p) as (Hd & Hs & Hf), (H23 p) as (Hd' & Hs' & Hf').
  repeat split; auto.
Qed.

Lemma fs_grows_log (T : string -> Prop) (w : world) (l : list event) :
  fs_grows T w {| fs := fs w; log := l |}.
Proof. intros p. simpl. auto. Qed.

Lemma fs_grows_weaken (T T' : string -> Prop) (w w' : world) :
  (forall p, T p -> T' p) -> fs_grows T w w' -> fs_grows T' w w'.
Proof.
  intros HT H p. destruct (H p) as (Hd & Hs & Hf). repeat split; auto.
Qed.

(** Writing a file: only the path written may change, and a directory
    there stays. *)
Lemma write_file_grows (T : string -> Prop) (p : string) (data : list byte) :
  T p -> keeps (fs_grows T) (write_file p data).
Proof.
  intros HT w q. unfold write_file.
  destruct (open_wb_error p (fs w)); [simpl; auto|].
  destruct (fs w !! p) as [[|c]|] eqn:Hp; simpl; auto.
  all: destruct (decide (p = q)) as [<-|Hne];
    [ rewrite lookup_insert_eq | rewrite lookup_insert_ne by exact Hne ].
  all: repeat split; eauto; try congruence; try tauto.
Qed.

(** Creating a directory: nothing that was there changes. *)
Lemma makedirs_grows (T : string -> Prop) (p : string) :
  keeps (fs_grows T) (makedirs_exist_ok p).
Proof.
  unfold makedirs_exist_ok.
  apply keeps_bind;
    [apply fs_grows_trans | apply keeps_emit, fs_grows_log |].
  intros _ w q. destruct (fs w !! p) as [[|c]|] eqn:Hp; simpl; auto.
  destruct (decide (p = q)) as [<-|Hne];
    [ rewrite lookup_insert_eq | rewrite lookup_insert_ne by exact Hne ].
  all: repeat split; eauto; try congruence; try (intros [? ?]; congruence).
Qed.

Ltac fs_side :=
  first [apply fs_grows_refl | apply fs_grows_log | apply fs_grows_trans].

Ltac grows_step :=
  first
    [ apply keeps_call; fs_side
    | apply keeps_st_image; fs_side
    | apply keeps_st; fs_side
    | apply keeps_getitem0; fs_side
    | apply keeps_exists; fs_side
    | apply makedirs_grows
    | apply keeps_spinner; [fs_side .. | ]
    | apply keeps_try; [fs_side .. | | intros ?]
    | apply keeps_emit; fs_side
    | apply keeps_ret; fs_side
    | apply keeps_raise; fs_side
    | match goal with |- keeps _ (if ?b then _ else _) => destruct b end
    | match goal with
      | |- keeps _ (bind _ _) => apply keeps_bind; [fs_side .. | | intros ?]
      end ].

(** ** What the blocks do to the file system *)

Lemma detect_grows {Box} (T : string -> Prop) (env : environment Box) uf :
  T (result_path env uf) -> keeps (fs_grows T) (detect env uf).
Proof.
  intros HT. unfold detect. repeat grows_step.
  now apply write_file_grows.
Qed.

Lemma analyze_grows {Box} (T : string -> Prop) (env : environment Box) uf :
  T (result_path env uf) -> keeps (fs_grows T) (analyze env uf).
Proof.
  intros HT. unfold analyze. repeat grows_step.
  now apply detect_grows.
Qed.

Lemma upload_block_grows {Box} (T : string -> Prop) (env : environment Box) uf :
  T (input_path env uf) -> T (result_path env uf) ->
  keeps (fs_grows T) (upload_block env uf).
Proof.
  intros HTi HTr. unfold upload_block, open_wb_write. repeat grows_step.
  - now apply write_file_grows.
  - now apply detect_grows.
Qed.

Lemma main_content_grows {Box} (env : environment Box) :
  keeps (fs_grows (written_by env)) (main_content env).
Proof.
  unfold main_content. repeat grows_step.
  destruct (uploaded_file env) as [uf|] eqn:Hu; [|repeat grows_step].
  apply upload_block_grows; exists uf; auto.
Qed.

Lemma script_grows {Box} (env : environment Box) :
  keeps (fs_grows (written_by env)) (script env).
Proof.
  unfold script, page_setup, startup, sidebar. repeat grows_step.
  apply main_content_grows.
Qed.

(** ** Rules for [appends_at_most] *)

Lemma count_app (f : event -> bool) (l1 l2 : list event) :
  count f (l1 ++ l2) = (count f l1 + count f l2)%nat.
Proof. unfold count. now rewrite List.filter_app, List.length_app. Qed.

Section Appends.

Variable f : event -> bool.

Lemma aam_weaken {A} (k k' : nat) (m : M A) :
  appends_at_most f k m -> (k <= k')%nat -> appends_at_most f k' m.
Proof.
  intros H Hle w. destruct (H w) as (evs & Hlog & Hc).
  exists evs. split; [exact Hlog | lia].
Qed.

Lemma aam_ret {A} (a : A) : appends_at_most f 0 (ret a).
Proof. intros w. exists []. simpl. now rewrite app_nil_r. Qed.

Lemma aam_raise {A} (e : exception) : appends_at_most f 0 (@raise A e).
Proof. intros w. exists []. simpl. now rewrite app_nil_r. Qed.

Lemma aam_emit (ev : event) : appends_at_most f (weight f ev) (emit ev).
Proof.
  intros w. exists [ev]. split; [reflexivity|].
  unfold count, weight. simpl. destruct (f ev); simpl; lia.
Qed.

Lemma aam_bind {A B} (k1 k2 : nat) (m : M A) (k : A -> M B) :
  appends_at_most f k1 m -> (forall a, appends_at_most f k2 (k a)) ->
  appends_at_most f (k1 + k2) (bind m k).
Proof.
  intros Hm Hk w. unfold bind. destruct (Hm w) as (evs1 & Hlog1 & Hc1).
  destruct (m w) as [[a|e] w1]; simpl in *.
  - destruct (Hk a w1) as (evs2 & Hlog2 & Hc2).
    exists (evs1 ++ evs2). rewrite Hlog2, Hlog1, <- app_assoc, count_app.
    split; [reflexivity | lia].
  - exists evs1. split; [exact Hlog1 | lia].
Qed.

Lemma aam_call {A} (ev : event) (o : outcome A) :
  appends_at_most f (weight f ev) (call ev o).
Proof.
  unfold call. eapply aam_weaken.
  - apply aam_bind; [apply aam_emit|]. intros _.
    destruct o; [apply aam_ret | apply aam_raise].
  - lia.
Qed.

Lemma aam_getitem0 {A} (xs : list A) : appends_at_most f 0 (getitem0 xs).
Proof. destruct xs; [apply aam_raise | apply aam_ret]. Qed.

Lemma aam_st (c : container) (e : element) :
  appends_at_most f (weight f (shown c e)) (st c e).
Proof. apply aam_emit. Qed.

Lemma aam_st_image {Box} (env : environment Box) c path cap :
  appends_at_most f (weight f (shown c (image path cap))) (st_image env c path cap).
Proof.
  unfold st_image. destruct (render_image env path).
  - apply aam_st.
  - eapply aam_weaken; [apply aam_raise | lia].
Qed.

Lemma aam_exists (p : string) :
  appends_at_most f (weight f (call_exists p)) (exists_ p).
Proof.
  unfold exists_. eapply aam_weaken.
  - apply aam_bind; [apply aam_emit|]. intros _ w. exists [].
    simpl. rewrite app_nil_r. split; [reflexivity | exact (Nat.le_refl 0)].
  - lia.
Qed.

Lemma aam_write_file (p : string) (data : list byte) :
  appends_at_most f 0 (write_file p data).
Proof.
  intros w. exists []. unfold write_file.
  destruct (open_wb_error p (fs w)); [simpl; rewrite app_nil_r; auto|].
  destruct (fs w !! p) as [[|c]|]; simpl; rewrite app_nil_r; auto.
Qed.

Lemma aam_open_wb_write (p : string) (data : list byte) :
  appends_at_most f (weight f (call_open_wb p)) (open_wb_write p data).
Proof.
  unfold open_wb_write. eapply aam_weaken.
  - apply aam_bind; [apply aam_emit|]. intros _. apply aam_write_file.
  - lia.
Qed.

Lemma aam_makedirs (p : string) :
  appends_at_most f (weight f (call_makedirs p)) (makedirs_exist_ok p).
Proof.
  unfold makedirs_exist_ok. eapply aam_weaken.
  - apply aam_bind; [apply aam_emit|]. intros _ w. exists [].
    destruct (fs w !! p) as [[|c]|]; simpl; rewrite app_nil_r;
      (split; [reflexivity | exact (Nat.le_refl 0)]).
  - lia.
Qed.

Lemma aam_try (k1 k2 : nat) (body : M unit) (handler : exception -> M unit) :
  appends_at_most f k1 body -> (forall e, appends_at_most f k2 (handler e)) ->
  appends_at_most f (k1 + k2) (try_except_Exception body handler).
Proof.
  intros Hb Hh w. unfold try_except_Exception.
  destruct (Hb w) as (evs1 & Hlog1 & Hc1).
  destruct (body w) as [[[]|e] w1]; simpl in *.
  - exists evs1. split; [exact Hlog1 | lia].
  - destruct (isinstance_Exception e).
    + destruct (Hh e w1) as (evs2 & Hlog2 & Hc2).
      exists (evs1 ++ evs2). rewrite Hlog2, Hlog1, <- app_assoc, count_app.
      split; [reflexivity | lia].
    + exists evs1. split; [exact Hlog1 | lia].
Qed.

Lemma aam_spinner (k : nat) (text : string) (body : M unit) :
  appends_at_most f k body ->
  appends_at_most f (weight f (shown Col1 (spinner text)) + k + weight f spinner_done)
                  (with_spinner text body).
Proof.
  intros Hb w. unfold with_spinner.
  destruct (aam_bind _ _ (emit (shown Col1 (spinner text))) (fun _ => body)
              (aam_emit _) (fun _ => Hb) w) as (evs & Hlog & Hc).
  destruct (bind _ _ w) as [r w1]; simpl in *.
  exists (evs ++ [spinner_done]). rewrite Hlog, <- app_assoc, count_app.
  split; [reflexivity|].
  unfold weight at 2. unfold count at 2. simpl.
  destruct (f spinner_done); simpl; lia.
Qed.

Lemma aam_if {A} (k1 k2 : nat) (b : bool) (m1 m2 : M A) :
  appends_at_most f k1 m1 -> appends_at_most f k2 m2 ->
  appends_at_most f (Nat.max k1 k2) (if b then m1 else m2).
Proof.
  intros H1 H2. destruct b; eapply aam_weaken; eauto; lia.
Qed.

End Appends.

Ltac aam_side :=
  unfold weight; simpl;
  repeat match goal with
         | H : forall c e, _ (shown c e) = false |- _ => rewrite H
         end;
  exact (Nat.le_refl _).

Ltac aam_leaf lem := eapply aam_weaken; [apply lem | aam_side].

Ltac aam_step :=
  lazymatch goal with
  | |- appends_at_most _ _ (call _ _) => aam_leaf aam_call
  | |- appends_at_most _ _ (st_image _ _ _ _) => aam_leaf aam_st_image
  | |- appends_at_most _ _ (st _ _) => aam_leaf aam_st
  | |- appends_at_most _ _ (emit _) => aam_leaf aam_emit
  | |- appends_at_most _ _ (exists_ _) => aam_leaf aam_exists
  | |- appends_at_most _ _ (makedirs_exist_ok _) => aam_leaf aam_makedirs
  | |- appends_at_most _ _ (open_wb_write _ _) => aam_leaf aam_open_wb_write
  | |- appends_at_most _ _ (write_file _ _) => apply aam_write_file
  | |- appends_at_most _ _ (getitem0 _) => apply aam_getitem0
  | |- appends_at_most _ _ (ret _) => apply aam_ret
  | |- appends_at_most _ _ (raise _) => apply aam_raise
  | |- appends_at_most _ _ (with_spinner _ _) =>
      eapply aam_weaken; [apply aam_spinner | aam_side]
  | |- appends_at_most _ _ (try_except_Exception _ _) =>
      apply aam_try; [|intros ?]
  | |- appends_at_most _ _ (if _ then _ else _) => apply aam_if
  | |- appends_at_most _ _ (bind _ _) => apply aam_bind; [|intros ?]
  end.

(** ** How often a run calls out *)

(** For an [f] that only looks at calls, the body of the [try] adds at most
    one event per call it makes. *)
Lemma detect_appends {Box} (f : event -> bool) (env : environment Box) uf :
  (forall c e, f (shown c e) = false) ->
  appends_at_most f
    (weight f (call_YOLO (MODEL_PATH env))
     + weight f (call_predict (input_path env uf))
     + weight f call_plot
     + weight f (call_save (result_path env uf)))
    (detect env uf).
Proof.
  intros Hf. unfold detect. eapply aam_weaken; [repeat aam_step|].
  unfold weight. simpl. lia.
Qed.

Lemma analyze_appends {Box} (f : event -> bool) (env : environment Box) uf :
  (forall c e, f (shown c e) = false) ->
  appends_at_most f
    (weight f spinner_done
     + weight f (call_exists (MODEL_PATH env))
     + weight f (call_YOLO (MODEL_PATH env))
     + weight f (call_predict (input_path env uf))
     + weight f call_plot
     + weight f (call_save (result_path env uf)))
    (analyze env uf).
Proof.
  intros Hf. unfold analyze. eapply aam_weaken.
  - aam_step. repeat aam_step. apply (detect_appends f env uf Hf).
  - unfold weight. simpl. lia.
Qed.

Lemma upload_block_appends {Box} (f : event -> bool) (env : environment Box) uf :
  (forall c e, f (shown c e) = false) ->
  appends_at_most f
    (weight f (call_open_wb (input_path env uf))
     + (weight f spinner_done
        + weight f (call_exists (MODEL_PATH env))
        + weight f (call_YOLO (MODEL_PATH env))
        + weight f (call_predict (input_path env uf))
        + weight f call_plot
        + weight f (call_save (result_path env uf))))
    (upload_block env uf).
Proof.
  intros Hf. unfold upload_block. eapply aam_weaken.
  - repeat aam_step. apply (analyze_appends f env uf Hf).
  - unfold weight. simpl. lia.
Qed.

(** A run adds at most [k] events that satisfy [f], when [f] looks only at
    the calls an upload gives rise to and those number at most [k]. *)
Lemma script_appends {Box} (f : event -> bool) (env : environment Box) (k : nat) :
  (forall c e, f (shown c e) = false) ->
  f set_page_config = false -> f markdown_style = false ->
  (forall p, f (call_makedirs p) = false) ->
  (forall uf,
      (weight f (call_open_wb (input_path env uf))
       + (weight f spinner_done
          + weight f (call_exists (MODEL_PATH env))
          + weight f (call_YOLO (MODEL_PATH env))
          + weight f (call_predict (input_path env uf))
          + weight f call_plot
          + weight f (call_save (result_path env uf))) <= k)%nat) ->
  appends_at_most f k (script env).
Proof.
  intros Hf Hc Hm Hd Hk.
  assert (Hmain : appends_at_most f k (main_content env)).
  { unfold main_content. eapply aam_weaken.
    - repeat aam_step. instantiate (1 := k).
      destruct (uploaded_file env) as [uf|].
      + eapply aam_weaken; [apply (upload_block_appends f env uf Hf) | apply Hk].
      + eapply aam_weaken; [aam_step | lia].
    - simpl. lia. }
  unfold script, page_setup, startup, sidebar. eapply aam_weaken.
  - repeat aam_step. exact Hmain.
  - unfold weight. rewrite Hc, Hm, !Hd. simpl. lia.
Qed.

(** ** The click handler *)

(** What [analyze] does when something sits at the model path: it runs the
    body of the [try] and handles what the body raises. *)
Lemma analyze_present {Box} (env : environment Box) uf w :
  is_Some (fs w !! MODEL_PATH env) ->
  analyze env uf w =
    match detect env uf (try_entry env w) with
    | (Returned _, w1) =>
        (Returned tt, {| fs := fs w1; log := log w1 ++ [spinner_done] |})
    | (Raised e, w1) =>
        if isinstance_Exception e
        then (Returned tt,
              {| fs := fs w1;
                 log := log w1 ++ [shown Col1 (error (detection_error_message e));
                                   spinner_done] |})
        else (Raised e, {| fs := fs w1; log := log w1 ++ [spinner_done] |})
    end.
Proof.
  intros Hsome. unfold analyze, try_entry. run_M.
  rewrite bool_decide_eq_true_2 by exact Hsome. cbn [negb].
  rewrite <- app_assoc. cbn [List.app].
  destruct (detect env uf _) as [[[]|e] w1]; [reflexivity|].
  destruct (isinstance_Exception e); [|reflexivity].
  cbn [fs log]. rewrite <- app_assoc. reflexivity.
Qed.

(** A block that opens with a call logs that call first. *)
Lemma call_bind_log {A B} (ev : event) (o : outcome A) (k : A -> M B) (w : world) :
  (forall a, appends_at_most (fun _ => false) 0 (k a)) ->
  exists evs, log (snd (bind (call ev o) k w)) = log w ++ ev :: evs.
Proof.
  intros Hk. destruct o as [a|e]; run_M.
  - destruct (Hk a {| fs := fs w; log := log w ++ [ev] |}) as (evs & Hlog & _).
    exists evs. rewrite Hlog. cbn [log]. now rewrite <- app_assoc.
  - exists []. reflexivity.
Qed.

Lemma detect_log_head {Box} (env : environment Box) uf w :
  exists evs, log (snd (detect env uf w)) = log w ++ call_YOLO (MODEL_PATH env) :: evs.
Proof.
  unfold detect. apply call_bind_log. intros m.
  eapply aam_weaken; [repeat aam_step | simpl; lia].
Qed.

(** With the model file present, the handler gets as far as loading it. *)
Lemma analyze_loads {Box} (env : environment Box) uf w :
  is_Some (fs w !! MODEL_PATH env) ->
  exists evs, log (snd (analyze env uf w)) = log w ++ evs
              /\ In (call_YOLO (MODEL_PATH env)) evs.
Proof.
  intros Hsome. rewrite (analyze_present env uf w Hsome).
  destruct (detect_log_head env uf (try_entry env w)) as (evs & Hlog).
  destruct (detect env uf _) as [[[]|e] w1]; cbn [snd log] in *;
    [|destruct (isinstance_Exception e)]; cbn [snd log]; rewrite Hlog;
    unfold try_entry; cbn [log];
    rewrite <- !app_assoc; eexists; (split; [reflexivity|]);
    cbn [List.app]; simpl; do 2 right; left; reflexivity.
Qed.

(** C1. When nothing sits at the model path, a click on the button shows
    the "Model file not found" error and does nothing else: the handler
    returns normally, the file system is as it was, and the events it adds
    hold no model load and no prediction.  The failure leaves nothing
    behind: in any world where the file is present the same handler goes on
    to load the model. *)
Theorem missing_model_reported {Box} (env : environment Box) (uf : UploadedFile)
        (w : world) :
  fs w !! MODEL_PATH env = None ->
  analyze env uf w =
    (Returned tt,
     {| fs := fs w;
        log := log w ++
          [shown Col1 (spinner "Analyzing image for damages...");
           call_exists (MODEL_PATH env);
           shown Col1
             (error ("Model file not found at: " +:+ MODEL_PATH env +:+
                     ". Please ensure 'damage-detector.pt' is in the project directory."));
           spinner_done] |})
  /\ (forall evs, log (snd (analyze env uf w)) = log w ++ evs ->
        count is_call_YOLO evs = 0%nat /\ count is_call_predict evs = 0%nat)
  /\ (forall w2, is_Some (fs w2 !! MODEL_PATH env) ->
        exists evs, log (snd (analyze env uf w2)) = log w2 ++ evs
                    /\ In (call_YOLO (MODEL_PATH env)) evs).
Proof.
  intros Hnone.
  assert (Heq : analyze env uf w =
    (Returned tt,
     {| fs := fs w;
        log := log w ++
          [shown Col1 (spinner "Analyzing image for damages...");
           call_exists (MODEL_PATH env);
           shown Col1 (error (model_missing_message env));
           spinner_done] |})).
  { unfold analyze. run_M. rewrite Hnone.
    rewrite bool_decide_eq_false_2 by (intros [? ?]; discriminate).
    cbn [negb]. run_M. rewrite <- !app_assoc. reflexivity. }
  split; [exact Heq|split].
  - intros evs Hevs. rewrite Heq in Hevs. cbn [snd log] in Hevs.
    apply app_inv_head in Hevs. subst evs. split; reflexivity.
  - intros w2 Hsome. now apply analyze_loads.
Qed.

Lemma missing_model_reported_witness :
  fs Sample.bare !! MODEL_PATH Sample.env = None
  /\ log (snd (analyze Sample.env Sample.car Sample.bare)) =
       [shown Col1 (spinner "Analyzing image for damages...");
        call_exists "/srv/app/damage-detector.pt";
        shown Col1
          (error "Model file not found at: /srv/app/damage-detector.pt. Please ensure 'damage-detector.pt' is in the project directory.");
        spinner_done].
Proof.
  split; [reflexivity|].
  pose proof (missing_model_reported Sample.env Sample.car Sample.bare eq_refl)
    as [H _].
  rewrite H. reflexivity.
Defined.

(** ** The count message *)

(** Different counts are printed differently. *)
Lemma str_of_len_inj (n n' : nat) : str_of_len n = str_of_len n' -> n = n'.
Proof. unfold str_of_len. apply pretty_nat_inj. Qed.

(** C2. When the body of the [try] ends without an exception, the last thing
    it shows is the message about the count of [results[0].boxes]: the
    "No visible damage detected." note when the list is empty, and otherwise
    the success message with the length of the list in decimal.  It is the
    only such message among the events of that invocation. *)
Theorem count_message_shown {Box} (env : environment Box) (uf : UploadedFile)
        (w w' : world) :
  detect env uf w = (Returned tt, w') ->
  exists m r rest evs msg,
    YOLO env (MODEL_PATH env) = Returned m
    /\ predict m (input_path env uf) = Returned (r :: rest)
    /\ log w' = log w ++ evs ++ [shown Col2 msg]
    /\ count is_verdict (evs ++ [shown Col2 msg]) = 1%nat
    /\ (length (boxes r) = 0%nat -> msg = info "No visible damage detected.")
    /\ (length (boxes r) <> 0%nat ->
        msg = success ("Detected " +:+ str_of_len (length (boxes r)) +:+ " issue(s)!")).
Proof.
  intros H.
  destruct (detect_returned_inv env uf w w' H)
    as (m & r & rest & arr & data & Hm & Hp & _ & _ & _ & _ & ->).
  exists m, r, rest.
  exists [call_YOLO (MODEL_PATH env); call_predict (input_path env uf);
          call_plot; call_save (result_path env uf);
          shown Col2 (subheader "2. Detection Results");
          shown Col2 (image (result_path env uf) "Detected Damages")].
  eexists. split; [exact Hm|]. split; [exact Hp|].
  split; [reflexivity|].
  destruct (length (boxes r)) as [|n]; simpl;
    (split; [reflexivity|]); split; congruence.
Qed.

Lemma count_message_shown_witness :
  detect Sample.env Sample.car Sample.ready
  = (Returned tt, snd (detect Sample.env Sample.car Sample.ready))
  /\ last (log (snd (detect Sample.env Sample.car Sample.ready)))
     = Some (shown Col2 (success "Detected 2 issue(s)!")).
Proof.
  split; [vm_compute; reflexivity|].
  destruct (count_message_shown Sample.env Sample.car Sample.ready
              (snd (detect Sample.env Sample.car Sample.ready)))
    as (m & r & rest & evs & msg & Hm & Hp & Hlog & _ & _ & Hmsg).
  - vm_compute. reflexivity.
  - injection Hm as <-. injection Hp as <- <-.
    rewrite Hlog, app_assoc, last_snoc, Hmsg by discriminate. reflexivity.
Defined.


(** ** Exceptions in the body of the [try] *)

(** The body itself shows no error message. *)
Lemma detect_no_error {Box} (env : environment Box) uf :
  appends_at_most is_error 0 (detect env uf).
Proof.
  unfold detect. eapply aam_weaken; [repeat aam_step | simpl; lia].
Qed.

(** An exception from loading the model leaves the body at once. *)
Lemma detect_raises_load {Box} (env : environment Box) uf w e :
  YOLO env (MODEL_PATH env) = Raised e ->
  detect env uf w =
    (Raised e, {| fs := fs w; log := log w ++ [call_YOLO (MODEL_PATH env)] |}).
Proof. intros H. unfold detect. run_M. rewrite H. reflexivity. Qed.

(** So does one from prediction. *)
Lemma detect_raises_predict {Box} (env : environment Box) uf w m e :
  YOLO env (MODEL_PATH env) = Returned m ->
  predict m (input_path env uf) = Raised e ->
  detect env uf w =
    (Raised e,
     {| fs := fs w;
        log := log w ++ [call_YOLO (MODEL_PATH env);
                         call_predict (input_path env uf)] |}).
Proof.
  intros Hm Hp. unfold detect. run_M. rewrite Hm. run_M. rewrite Hp. run_M.
  rewrite <- app_assoc. reflexivity.
Qed.

(** An empty list of results ends the body with [IndexError]. *)
Lemma detect_raises_index {Box} (env : environment Box) uf w m :
  YOLO env (MODEL_PATH env) = Returned m ->
  predict m (input_path env uf) = Returned [] ->
  detect env uf w =
    (Raised IndexError,
     {| fs := fs w;
        log := log w ++ [call_YOLO (MODEL_PATH env);
                         call_predict (input_path env uf)] |}).
Proof.
  intros Hm Hp. unfold detect. run_M. rewrite Hm. run_M. rewrite Hp. run_M.
  rewrite <- app_assoc. reflexivity.
Qed.

(** An exception from plotting. *)
Lemma detect_raises_plot {Box} (env : environment Box) uf w m r rest e :
  YOLO env (MODEL_PATH env) = Returned m ->
  predict m (input_path env uf) = Returned (r :: rest) ->
  plot r = Raised e ->
  detect env uf w =
    (Raised e,
     {| fs := fs w;
        log := log w ++ [call_YOLO (MODEL_PATH env);
                         call_predict (input_path env uf);
                         call_plot] |}).
Proof.
  intros Hm Hp Hplot. unfold detect. run_M. rewrite Hm. run_M. rewrite Hp.
  run_M. rewrite Hplot. run_M. rewrite <- !app_assoc. reflexivity.
Qed.

(** An exception from encoding the result image: nothing is written. *)
Lemma detect_raises_save {Box} (env : environment Box) uf w m r rest arr e :
  YOLO env (MODEL_PATH env) = Returned m ->
  predict m (input_path env uf) = Returned (r :: rest) ->
  plot r = Returned arr ->
  Image_save env (Image_fromarray (reverse_last_axis arr)) (result_path env uf)
    = Raised e ->
  detect env uf w =
    (Raised e,
     {| fs := fs w;
        log := log w ++ [call_YOLO (MODEL_PATH env);
                         call_predict (input_path env uf);
                         call_plot;
                         call_save (result_path env uf)] |}).
Proof.
  intros Hm Hp Hplot Hsave. unfold detect. run_M. rewrite Hm. run_M.
  rewrite Hp. run_M. rewrite Hplot. run_M. rewrite Hsave. run_M.
  rewrite <- !app_assoc. reflexivity.
Qed.

(** An exception from rendering the result: the file is already there. *)
Lemma detect_raises_render {Box} (env : environment Box) uf w m r rest arr data e :
  YOLO env (MODEL_PATH env) = Returned m ->
  predict m (input_path env uf) = Returned (r :: rest) ->
  plot r = Returned arr ->
  Image_save env (Image_fromarray (reverse_last_axis arr)) (result_path env uf)
    = Returned data ->
  fs w !! RESULT_FOLDER = Some Dir ->
  fs w !! result_path env uf <> Some Dir ->
  render_image env (result_path env uf) = Raised e ->
  detect env uf w =
    (Raised e,
     {| fs := <[result_path env uf := File data]> (fs w);
        log := log w ++ [call_YOLO (MODEL_PATH env);
                         call_predict (input_path env uf);
                         call_plot;
                         call_save (result_path env uf);
                         shown Col2 (subheader "2. Detection Results")] |}).
Proof.
  intros Hm Hp Hplot Hsave Hpar Hfs Hr. unfold detect. run_M. rewrite Hm. run_M.
  rewrite Hp. run_M. rewrite Hplot. run_M. rewrite Hsave. run_M.
  rewrite (open_result_path env uf _ Hpar).
  destruct (fs w !! result_path env uf) as [[|c]|]; [congruence| |];
    run_M; rewrite Hr; run_M; rewrite <- !app_assoc; reflexivity.
Qed.

(** C3, as the code has it.  When the body of the [try] raises an exception
    that is an instance of [Exception], wherever in the body it comes from,
    the handler returns normally and the last thing it shows is the error
    message "Error during detection: " followed by the text of the
    exception, unchanged.  It is the only error message of the invocation,
    and no call of the body is made a second time. *)
Theorem exception_reported {Box} (env : environment Box) (uf : UploadedFile)
        (w : world) (e : exception) :
  is_Some (fs w !! MODEL_PATH env) ->
  fst (detect env uf (try_entry env w)) = Raised e ->
  isinstance_Exception e = true ->
  analyze env uf w =
    (Returned tt,
     {| fs := fs (snd (detect env uf (try_entry env w)));
        log := log (snd (detect env uf (try_entry env w))) ++
               [shown Col1 (error ("Error during detection: " +:+ exc_str e));
                spinner_done] |})
  /\ (forall evs, log (snd (analyze env uf w)) = log w ++ evs ->
        count is_error evs = 1%nat
        /\ (count is_call_YOLO evs <= 1)%nat
        /\ (count is_call_predict evs <= 1)%nat
        /\ (count is_call_plot evs <= 1)%nat
        /\ (count is_call_save evs <= 1)%nat).
Proof.
  set (w0 := try_entry env w). intros Hsome Hraised Hexc.
  assert (Heq : analyze env uf w =
    (Returned tt,
     {| fs := fs (snd (detect env uf w0));
        log := log (snd (detect env uf w0)) ++
               [shown Col1 (error (detection_error_message e)); spinner_done] |})).
  { rewrite (analyze_present env uf w Hsome). fold w0.
    destruct (detect env uf w0) as [[[]|e'] w1]; simpl in Hraised;
      [discriminate|].
    injection Hraised as ->. now rewrite Hexc. }
  split; [exact Heq|].
  intros evs Hevs. split.
  - rewrite Heq in Hevs. cbn [snd log] in Hevs.
    destruct (detect_no_error env uf w0) as (evs1 & Hlog1 & Hc1).
    rewrite Hlog1 in Hevs. subst w0. unfold try_entry in Hevs. cbn [log] in Hevs.
    rewrite <- !app_assoc in Hevs. apply app_inv_head in Hevs. subst evs.
    cbn [List.app]. change (?a :: ?b :: ?l) with ([a; b] ++ l).
    rewrite !count_app. unfold count at 1 3. simpl. lia.
  - assert (Hbound : forall f, (forall c el, f (shown c el) = false) ->
              (weight f spinner_done + weight f (call_exists (MODEL_PATH env))
               + weight f (call_YOLO (MODEL_PATH env))
               + weight f (call_predict (input_path env uf))
               + weight f call_plot
               + weight f (call_save (result_path env uf)) <= 1)%nat ->
              (count f evs <= 1)%nat).
    { intros f Hf Hle.
      destruct (analyze_appends f env uf Hf w) as (evs' & Hlog' & Hc').
      rewrite Hevs in Hlog'. apply app_inv_head in Hlog'. subst evs'. lia. }
    repeat split; apply Hbound; intros; reflexivity || (simpl; lia).
Qed.

Lemma exception_reported_witness :
  is_Some (fs Sample.installed !! MODEL_PATH Sample.env_failing)
  /\ fst (detect Sample.env_failing Sample.car
            (try_entry Sample.env_failing Sample.installed))
     = Raised Sample.RuntimeError
  /\ isinstance_Exception Sample.RuntimeError = true
  /\ analyze Sample.env_failing Sample.car Sample.installed =
       (Returned tt,
        {| fs := fs Sample.installed;
           log := [shown Col1 (spinner "Analyzing image for damages...");
                   call_exists "/srv/app/damage-detector.pt";
                   call_YOLO "/srv/app/damage-detector.pt";
                   call_predict "uploads/00000000-0000-4000-8000-000000000000.JPG";
                   shown Col1 (error "Error during detection: CUDA out of memory");
                   spinner_done] |}).
Proof.
  assert (H1 : is_Some (fs Sample.installed !! MODEL_PATH Sample.env_failing))
    by (vm_compute; eauto).
  assert (H2 : fst (detect Sample.env_failing Sample.car
                      (try_entry Sample.env_failing Sample.installed))
               = Raised Sample.RuntimeError) by (vm_compute; reflexivity).
  split; [exact H1|]. split; [exact H2|]. split; [reflexivity|].
  rewrite (proj1 (exception_reported Sample.env_failing Sample.car
                    Sample.installed Sample.RuntimeError H1 H2 eq_refl)).
  vm_compute. reflexivity.
Defined.

(** An exception that is not an instance of [Exception] passes through the
    [except] clause: raised while the model is loaded, it ends the handler,
    and no error message is shown. *)
Lemma exception_not_caught :
  YOLO Sample.env_exit (MODEL_PATH Sample.env_exit) = Raised Sample.SystemExit
  /\ fst (analyze Sample.env_exit Sample.car Sample.installed)
     = Raised Sample.SystemExit
  /\ count is_error (log (snd (analyze Sample.env_exit Sample.car Sample.installed)))
     = 0%nat.
Proof. repeat split; vm_compute; reflexivity. Qed.

(** ** The upload *)

Lemma string_app_empty_r (s : string) : s +:+ "" = s.
Proof. induction s as [|c s IH]; [reflexivity|]. rewrite string_app_cons. now f_equal. Qed.

(** C10. The stored name is the UUID string followed by the second part of
    [splitext] of the uploaded name.  That part is the tail of the uploaded
    name, character for character, so its case is kept; it is empty or
    starts at the last dot.  A name without a dot has none, and with none
    the file is stored under the UUID string alone.  A name whose last
    component has a character other than a dot before its last dot does
    have one: the extension is that last dot with all that follows it,
    unchanged, and it ends the stored name. *)
Theorem extension_verbatim {Box} (env : environment Box) (uf : UploadedFile) :
  exists root ext,
    os_path.splitext (name uf) = (root, ext)
    /\ name uf = root +:+ ext
    /\ unique_filename env uf = uuid.str (uuid.uuid4 (urandom16 env)) +:+ ext
    /\ input_path env uf = "uploads/" +:+ uuid.str (uuid.uuid4 (urandom16 env)) +:+ ext
    /\ (ext = "" \/ exists t, ext = String "." t /\ Str.contains "." t = false)
    /\ (Str.contains "." (name uf) = false -> ext = "")
    /\ (ext = "" ->
        unique_filename env uf = uuid.str (uuid.uuid4 (urandom16 env))
        /\ input_path env uf = "uploads/" +:+ uuid.str (uuid.uuid4 (urandom16 env)))
    /\ (forall (a b t : string) (c : ascii),
          name uf = (a +:+ String c b) +:+ String "." t ->
          c <> "."%char ->
          Str.contains "/" (String c b) = false ->
          Str.contains "." t = false ->
          Str.contains "/" t = false ->
          root = a +:+ String c b
          /\ ext = String "." t
          /\ unique_filename env uf
             = uuid.str (uuid.uuid4 (urandom16 env)) +:+ String "." t
          /\ input_path env uf
             = "uploads/" +:+ uuid.str (uuid.uuid4 (urandom16 env)) +:+ String "." t).
Proof.
  destruct (os_path.splitext (name uf)) as [root ext] eqn:Hsplit.
  exists root, ext.
  pose proof (splitext_concat (name uf)) as Hcat.
  pose proof (splitext_ext_shape (name uf)) as Hshape.
  pose proof (input_path_eq env uf) as Hpath.
  assert (Hlast : forall (a b t : string) (c : ascii),
            name uf = (a +:+ String c b) +:+ String "." t ->
            c <> "."%char ->
            Str.contains "/" (String c b) = false ->
            Str.contains "." t = false ->
            Str.contains "/" t = false ->
            root = a +:+ String c b /\ ext = String "." t).
  { intros a b t c Hname Hc Hcb Hdot Hsep.
    pose proof (splitext_ext a b t c Hc Hcb Hdot Hsep) as Hx.
    unfold os_path.extsep in Hx. rewrite <- Hname, Hsplit in Hx.
    now injection Hx as -> ->. }
  unfold unique_filename, file_ext in *. rewrite Hsplit in *. simpl in *.
  repeat (split; [solve [auto]|]).
  split; [|split]; [| |intros a b t c Hname Hc Hcb Hdot Hsep].
  - intros Hdot. rewrite (splitext_no_dot _ Hdot) in Hsplit. congruence.
  - intros ->. split; [apply string_app_empty_r|].
    rewrite Hpath. now rewrite string_app_empty_r.
  - destruct (Hlast a b t c Hname Hc Hcb Hdot Hsep) as [-> ->].
    repeat split; try reflexivity. exact Hpath.
Qed.

Lemma extension_verbatim_witness :
  name {| name := "car.PNG"; getbuffer := [] |} = ("" +:+ String "c" "ar") +:+ String "." "PNG"
  /\ unique_filename Sample.env {| name := "car.PNG"; getbuffer := [] |}
     = "00000000-0000-4000-8000-000000000000.PNG".
Proof.
  split; [reflexivity|].
  destruct (extension_verbatim Sample.env {| name := "car.PNG"; getbuffer := [] |})
    as (root & ext & _ & _ & _ & _ & _ & _ & _ & Hext).
  destruct (Hext "" "ar" "PNG" "c"%char eq_refl ltac:(discriminate)
              eq_refl eq_refl eq_refl) as (_ & _ & Hname & _).
  rewrite Hname. reflexivity.
Defined.

(** After a step of [m] that returned, the rest of a block is run from the
    world that step left. *)
Lemma bind_keeps_from {A B} (R : world -> world -> Prop) (m : M A) (k : A -> M B)
      (w w1 : world) (a : A) :
  m w = (Returned a, w1) -> keeps R (k a) -> R w1 (snd (bind m k w)).
Proof. intros Hm Hk. unfold bind. rewrite Hm. apply Hk. Qed.

Lemma open_wb_write_returns (p : string) (data : list byte) (w : world) :
  open_wb_error p (fs w) = None ->
  fs w !! p <> Some Dir ->
  open_wb_write p data w =
    (Returned tt, {| fs := <[p := File data]> (fs w);
                     log := log w ++ [call_open_wb p] |}).
Proof.
  intros Hopen Hp. unfold open_wb_write. run_M. rewrite Hopen.
  destruct (fs w !! p) as [[|c]|]; [congruence| |]; reflexivity.
Qed.

(** Two stored names with different UUID strings differ, whatever the
    extensions. *)
Lemma unique_filename_inj {Box} (env env' : environment Box) (uf uf' : UploadedFile) :
  unique_filename env uf = unique_filename env' uf' ->
  uuid.str (uuid.uuid4 (urandom16 env)) = uuid.str (uuid.uuid4 (urandom16 env'))
  /\ file_ext uf = file_ext uf'.
Proof.
  unfold unique_filename. apply string_app_eq_same_length.
  now rewrite !uuid_str_length.
Qed.

(** ** Past the folders *)

(** Once the two [makedirs] calls have returned, both folders are
    directories. *)
Lemma startup_dirs (w w1 : world) :
  (page_setup ;; startup) w = (Returned tt, w1) ->
  fs w1 !! UPLOAD_FOLDER = Some Dir /\ fs w1 !! RESULT_FOLDER = Some Dir.
Proof.
  unfold page_setup, startup, UPLOAD_FOLDER, RESULT_FOLDER. run_M.
  destruct (fs w !! "uploads") as [[|c]|] eqn:Hu; run_M.
  - destruct (fs w !! "results") as [[|c]|] eqn:Hr; run_M; intros H;
      [|discriminate H|]; injection H as <-; cbn [fs].
    + now split.
    + rewrite lookup_insert_eq, lookup_insert_ne by discriminate. now split.
  - intros H. discriminate H.
  - rewrite lookup_insert_ne by discriminate.
    destruct (fs w !! "results") as [[|c]|] eqn:Hr; run_M; intros H;
      [|discriminate H|]; injection H as <-; cbn [fs].
    + rewrite lookup_insert_eq, lookup_insert_ne by discriminate. now split.
    + rewrite lookup_insert_eq, lookup_insert_ne, lookup_insert_eq
        by discriminate.
      now split.
Qed.

(** The rest of the script runs from the world they left. *)
Lemma script_after_startup {Box} (env : environment Box) (w w1 : world) :
  (page_setup ;; startup) w = (Returned tt, w1) ->
  script env w = (sidebar ;; main_content env) w1.
Proof.
  intros H. unfold script, bind in *.
  destruct (page_setup w) as [[[]|e] w0]; [|discriminate].
  destruct (startup w0) as [[[]|e] w0']; [|discriminate].
  injection H as ->. reflexivity.
Qed.

(** The write of the upload stays through the rest of the block. *)
Lemma upload_block_stores {Box} (env : environment Box) (uf : UploadedFile) (w : world) :
  fs w !! UPLOAD_FOLDER = Some Dir ->
  fs w !! input_path env uf <> Some Dir ->
  fs (snd (upload_block env uf w)) !! input_path env uf = Some (File (getbuffer uf)).
Proof.
  intros Hup Hdir.
  assert (Hrest : keeps (fs_grows (fun p => p = result_path env uf))
            (st_image env Col1 (input_path env uf) "Original Image" ;;
             st Col1 (button "Analyze Damage 🔍") ;;
             if button_clicked env then analyze env uf else ret tt)).
  { repeat grows_step. now apply detect_grows. }
  unfold upload_block, bind at 1.
  rewrite (open_wb_write_returns _ _ w (open_input_path env uf _ Hup) Hdir).
  apply (Hrest _ (input_path env uf)).
  - apply input_path_ne_result_path.
  - cbn [fs]. apply lookup_insert_eq.
Qed.

(** Without the [uploads] folder nothing is stored: [open] raises, outside
    any [try], and the run ends there. *)
Lemma upload_block_without_folder {Box} (env : environment Box)
      (uf : UploadedFile) (w : world) :
  fs w !! UPLOAD_FOLDER = None ->
  upload_block env uf w =
    (Raised (FileNotFoundError (input_path env uf)),
     {| fs := fs w; log := log w ++ [call_open_wb (input_path env uf)] |}).
Proof.
  intros Hnone. unfold upload_block. run_M.
  rewrite (open_wb_error_missing _ _ _ (parent_input_path env uf) Hnone).
  reflexivity.
Qed.

(** C4, as the code has it.  For an upload the handler builds the name
    [str(uuid4())] followed by the upload's extension, and the path
    [uploads/] followed by that name, which holds no further separator.
    With the [uploads] folder in place, and unless a directory sits at that
    path, when the handler is done the file there holds exactly the
    uploaded bytes.  The folder is in place in every run that got past the
    two [makedirs] calls, so such a run stores the upload.  The names of two
    uploads differ whenever their UUID strings differ; the code does nothing
    else to keep them apart. *)
Theorem upload_stored {Box} (env : environment Box) (uf : UploadedFile) (w : world) :
  fs w !! "uploads" = Some Dir ->
  fs w !! input_path env uf <> Some Dir ->
  unique_filename env uf
    = uuid.str (uuid.uuid4 (urandom16 env)) +:+ snd (os_path.splitext (name uf))
  /\ input_path env uf = "uploads/" +:+ unique_filename env uf
  /\ Str.contains "/" (unique_filename env uf) = false
  /\ fs (snd (upload_block env uf w)) !! input_path env uf
     = Some (File (getbuffer uf))
  /\ (forall w0 w1 : world,
        uploaded_file env = Some uf ->
        (page_setup ;; startup) w0 = (Returned tt, w1) ->
        fs w1 !! input_path env uf <> Some Dir ->
        fs (run env w0) !! input_path env uf = Some (File (getbuffer uf)))
  /\ (forall (env' : environment Box) (uf' : UploadedFile),
        uuid.str (uuid.uuid4 (urandom16 env))
          <> uuid.str (uuid.uuid4 (urandom16 env')) ->
        unique_filename env uf <> unique_filename env' uf').
Proof.
  intros Hup Hdir. split; [reflexivity|]. split; [apply input_path_eq|].
  split; [apply unique_filename_no_sep|].
  split; [now apply upload_block_stores|]. split.
  - intros w0 w1 Hu Hstart Hdir1. unfold run.
    rewrite (script_after_startup env w0 w1 Hstart).
    unfold sidebar, main_content. rewrite Hu. run_M.
    apply upload_block_stores; cbn [fs];
      [apply (startup_dirs w0 w1 Hstart) | exact Hdir1].
  - intros env' uf' Hne Heq. apply Hne.
    now destruct (unique_filename_inj env env' uf uf' Heq).
Qed.

Lemma upload_stored_witness :
  fs Sample.ready !! "uploads" = Some Dir
  /\ fs Sample.ready !! input_path Sample.env Sample.car <> Some Dir
  /\ fs (snd (upload_block Sample.env Sample.car Sample.ready))
       !! "uploads/00000000-0000-4000-8000-000000000000.JPG"
     = Some (File [xff; xd8; xff]).
Proof.
  assert (H0 : fs Sample.ready !! "uploads" = Some Dir)
    by (vm_compute; reflexivity).
  assert (H : fs Sample.ready !! input_path Sample.env Sample.car <> Some Dir)
    by (vm_compute; discriminate).
  split; [exact H0|]. split; [exact H|].
  exact (proj1 (proj2 (proj2 (proj2
           (upload_stored Sample.env Sample.car Sample.ready H0 H))))).
Defined.

(** Two different uploads, one stored name: nothing keeps [uuid4] from
    returning what it returned before.  And with a directory at the path,
    the upload is not written at all: [open] raises. *)
Lemma filename_collision :
  Sample.car <> Sample.van
  /\ unique_filename Sample.env Sample.car
     = unique_filename Sample.env_again Sample.van
  /\ fst (upload_block Sample.env Sample.car Sample.blocked)
     = Raised (IsADirectoryError "uploads/00000000-0000-4000-8000-000000000000.JPG")
  /\ fs (snd (upload_block Sample.env Sample.car Sample.blocked))
       !! input_path Sample.env Sample.car = Some Dir.
Proof.
  split; [discriminate|]. split; [reflexivity|].
  split; vm_compute; reflexivity.
Qed.

(** ** The result image *)

(** C5. When the body of the [try] ends without an exception, the file at
    [results/result_<unique_filename>] holds the bytes the save of the
    annotated picture produced: the result image sits in [results/] under
    the upload's stored name with [result_] put in front. *)
Theorem result_persisted {Box} (env : environment Box) (uf : UploadedFile)
        (w w' : world) :
  detect env uf w = (Returned tt, w') ->
  exists m r rest arr data,
    YOLO env (MODEL_PATH env) = Returned m
    /\ predict m (input_path env uf) = Returned (r :: rest)
    /\ plot r = Returned arr
    /\ Image_save env (Image_fromarray (reverse_last_axis arr))
                  (result_path env uf) = Returned data
    /\ fs w' !! result_path env uf = Some (File data)
    /\ result_filename env uf = "result_" +:+ unique_filename env uf
    /\ result_path env uf = "results/" +:+ result_filename env uf.
Proof.
  intros H.
  destruct (detect_returned_inv env uf w w' H)
    as (m & r & rest & arr & data & Hm & Hp & Hplot & Hsave & _ & _ & ->).
  exists m, r, rest, arr, data. repeat (split; [assumption|]).
  split; [apply lookup_insert_eq|]. split; reflexivity.
Qed.

Lemma result_persisted_witness :
  detect Sample.env Sample.car Sample.ready
  = (Returned tt, snd (detect Sample.env Sample.car Sample.ready))
  /\ fs (snd (detect Sample.env Sample.car Sample.ready))
       !! "results/result_00000000-0000-4000-8000-000000000000.JPG"
     = Some (File [x03; x02; x01; x0c; x0b; x0a]).
Proof.
  assert (H : detect Sample.env Sample.car Sample.ready
              = (Returned tt, snd (detect Sample.env Sample.car Sample.ready)))
    by (vm_compute; reflexivity).
  split; [exact H|].
  destruct (result_persisted Sample.env Sample.car Sample.ready _ H)
    as (m & r & rest & arr & data & Hm & Hp & Hplot & Hsave & Hfs & _).
  injection Hm as <-. injection Hp as <- <-. injection Hplot as <-.
  injection Hsave as <-. exact Hfs.
Defined.

Lemma list_lookup_map {A B} (f : A -> B) (l : list A) (i : nat) :
  map f l !! i = option_map f (l !! i).
Proof.
  revert i; induction l as [|x l IH]; intros [|i]; simpl; auto.
Qed.

(** Reversing the last axis reverses every pixel and moves none. *)
Lemma pixel_reverse_last_axis (a : list (list (list byte))) (i j : nat) :
  pixel (reverse_last_axis a) i j = option_map (@rev byte) (pixel a i j).
Proof.
  unfold pixel, reverse_last_axis, ndarray. rewrite list_lookup_map.
  destruct (a !! i) as [row|]; simpl; [apply list_lookup_map | reflexivity].
Qed.

(** C8. When the body of the [try] ends without an exception, the image
    handed to [save], whose encoding is the file at the result path, is the
    array [results[0].plot()] returned with its last axis reversed: it has
    the same rows, and each of its pixels is the pixel of the plotted array
    at the same place, read backwards, so blue-green-red becomes
    red-green-blue. *)
Theorem result_channels_reversed {Box} (env : environment Box) (uf : UploadedFile)
        (w w' : world) :
  detect env uf w = (Returned tt, w') ->
  exists m r rest arr data,
    YOLO env (MODEL_PATH env) = Returned m
    /\ predict m (input_path env uf) = Returned (r :: rest)
    /\ plot r = Returned arr
    /\ Image_save env (Image_fromarray (reverse_last_axis arr))
                  (result_path env uf) = Returned data
    /\ fs w' !! result_path env uf = Some (File data)
    /\ length (pixels (Image_fromarray (reverse_last_axis arr))) = length arr
    /\ (forall i j,
          pixel (pixels (Image_fromarray (reverse_last_axis arr))) i j
          = option_map (@rev byte) (pixel arr i j))
    /\ (forall i j b g r',
          pixel arr i j = Some [b; g; r'] ->
          pixel (pixels (Image_fromarray (reverse_last_axis arr))) i j
          = Some [r'; g; b]).
Proof.
  intros H.
  destruct (detect_returned_inv env uf w w' H)
    as (m & r & rest & arr & data & Hm & Hp & Hplot & Hsave & _ & _ & ->).
  exists m, r, rest, arr, data.
  repeat (split; [assumption|]).
  split; [apply lookup_insert_eq|].
  split; [apply length_map|].
  split.
  - intros i j. apply pixel_reverse_last_axis.
  - intros i j b g r' Hpx. simpl. rewrite pixel_reverse_last_axis, Hpx.
    reflexivity.
Qed.

Lemma result_channels_reversed_witness :
  detect Sample.env Sample.car Sample.ready
  = (Returned tt, snd (detect Sample.env Sample.car Sample.ready))
  /\ pixel Sample.picture 0 1 = Some [x0a; x0b; x0c]
  /\ pixel (pixels (Image_fromarray (reverse_last_axis Sample.picture))) 0 1
     = Some [x0c; x0b; x0a].
Proof.
  assert (H : detect Sample.env Sample.car Sample.ready
              = (Returned tt, snd (detect Sample.env Sample.car Sample.ready)))
    by (vm_compute; reflexivity).
  split; [exact H|]. split; [reflexivity|].
  destruct (result_channels_reversed Sample.env Sample.car Sample.ready _ H)
    as (m & r & rest & arr & data & Hm & Hp & Hplot & _ & _ & _ & _ & Hbgr).
  injection Hm as <-. injection Hp as <- <-. injection Hplot as <-.
  apply (Hbgr 0%nat 1%nat x0a x0b x0c). reflexivity.
Defined.

(** ** Start of a run *)

(** Unless a regular file sits at [uploads] or [results], the two
    [makedirs] calls return and leave both directories in place. *)
Lemma startup_returns {Box} (env : environment Box) (w : world) :
  (forall c, fs w !! UPLOAD_FOLDER <> Some (File c)) ->
  (forall c, fs w !! RESULT_FOLDER <> Some (File c)) ->
  exists w1,
    (page_setup ;; startup) w = (Returned tt, w1)
    /\ fs w1 !! "uploads" = Some Dir
    /\ fs w1 !! "results" = Some Dir
    /\ (forall p, p <> "uploads" -> p <> "results" -> fs w1 !! p = fs w !! p)
    /\ log w1 = log w ++ [set_page_config; markdown_style;
                          call_makedirs "uploads"; call_makedirs "results"]
    /\ script env w = (sidebar ;; main_content env) w1
    /\ fs (run env w) !! "uploads" = Some Dir
    /\ fs (run env w) !! "results" = Some Dir.
Proof.
  intros Hup Hres.
  assert (Hstart : exists w1,
    (page_setup ;; startup) w = (Returned tt, w1)
    /\ fs w1 !! "uploads" = Some Dir
    /\ fs w1 !! "results" = Some Dir
    /\ (forall p, p <> "uploads" -> p <> "results" -> fs w1 !! p = fs w !! p)
    /\ log w1 = log w ++ [set_page_config; markdown_style;
                          call_makedirs "uploads"; call_makedirs "results"]
    /\ script env w = (sidebar ;; main_content env) w1).
  { unfold script, page_setup, startup, UPLOAD_FOLDER, RESULT_FOLDER in *.
    run_M.
    destruct (fs w !! "uploads") as [[|c]|] eqn:Hu;
      [| exfalso; exact (Hup c eq_refl) |]; run_M.
    - destruct (fs w !! "results") as [[|c]|] eqn:Hr;
        [| exfalso; exact (Hres c eq_refl) |]; run_M;
        eexists; (split; [reflexivity|]); cbn [fs log];
        rewrite <- ?app_assoc; cbn [List.app].
      + repeat split; auto.
      + rewrite lookup_insert_eq, lookup_insert_ne by discriminate.
        repeat split; auto.
        intros p _ Hp. now rewrite lookup_insert_ne by congruence.
    - rewrite lookup_insert_ne by discriminate.
      destruct (fs w !! "results") as [[|c]|] eqn:Hr;
        [| exfalso; exact (Hres c eq_refl) |]; run_M;
        eexists; (split; [reflexivity|]); cbn [fs log];
        rewrite <- ?app_assoc; cbn [List.app].
      + rewrite lookup_insert_eq, lookup_insert_ne by discriminate.
        repeat split; auto.
        intros p Hp _. now rewrite lookup_insert_ne by congruence.
      + rewrite lookup_insert_eq, lookup_insert_ne, lookup_insert_eq
          by discriminate.
        repeat split; auto.
        intros p Hp Hp'. now rewrite !lookup_insert_ne by congruence. }
  destruct Hstart as (w1 & Hrun & Hu1 & Hr1 & Hframe & Hlog & Hscript).
  exists w1. repeat (split; [assumption|]).
  assert (Hgrow : fs_grows (written_by env) w1 (run env w)).
  { unfold run. rewrite Hscript.
    assert (Hk : keeps (fs_grows (written_by env)) (sidebar ;; main_content env)).
    { unfold sidebar. repeat grows_step. apply main_content_grows. }
    apply Hk. }
  split; [apply (Hgrow "uploads") | apply (Hgrow "results")]; assumption.
Qed.


(** With a regular file at one of the two names, [makedirs] raises. *)
Lemma startup_raises (w : world) (c : list byte) :
  fs w !! UPLOAD_FOLDER = Some (File c) \/ fs w !! RESULT_FOLDER = Some (File c) ->
  exists e w1, (page_setup ;; startup) w = (Raised e, w1).
Proof.
  unfold page_setup, startup, UPLOAD_FOLDER, RESULT_FOLDER. intros Hfile. run_M.
  destruct (fs w !! "uploads") as [[|c']|] eqn:Hu; run_M.
  - destruct Hfile as [Hfile|Hfile]; [discriminate|]. rewrite Hfile.
    do 2 eexists; reflexivity.
  - do 2 eexists; reflexivity.
  - destruct Hfile as [Hfile|Hfile]; [discriminate|].
    rewrite lookup_insert_ne by discriminate. rewrite Hfile.
    do 2 eexists; reflexivity.
Qed.

(** C7. Every run makes the two [makedirs] calls right after the page
    configuration and the style sheet, before any widget is drawn and before
    the upload and the click are handled.  Once they have returned, both
    [uploads] and [results] are directories: one that was absent has been
    created, nothing else in the file system has changed, the rest of the
    script runs from the world so obtained, and both are still directories
    when the run ends.  The calls do return unless a regular file sits at
    one of the two names. *)
Theorem folders_created {Box} (env : environment Box) (w w1 : world) :
  (page_setup ;; startup) w = (Returned tt, w1) ->
  fs w1 !! "uploads" = Some Dir
  /\ fs w1 !! "results" = Some Dir
  /\ (forall p, p <> "uploads" -> p <> "results" -> fs w1 !! p = fs w !! p)
  /\ log w1 = log w ++ [set_page_config; markdown_style;
                        call_makedirs "uploads"; call_makedirs "results"]
  /\ script env w = (sidebar ;; main_content env) w1
  /\ fs (run env w) !! "uploads" = Some Dir
  /\ fs (run env w) !! "results" = Some Dir
  /\ (forall w0,
        (forall c, fs w0 !! "uploads" <> Some (File c))
        /\ (forall c, fs w0 !! "results" <> Some (File c))
        <-> exists w2, (page_setup ;; startup) w0 = (Returned tt, w2)).
Proof.
  intros Hrun.
  assert (Hfree : forall w0 w2,
            (page_setup ;; startup) w0 = (Returned tt, w2) ->
            (forall c, fs w0 !! UPLOAD_FOLDER <> Some (File c))
            /\ (forall c, fs w0 !! RESULT_FOLDER <> Some (File c))).
  { intros w0 w2 H0. split; intros c Hc.
    - destruct (startup_raises w0 c (or_introl Hc)) as (e & w3 & He). congruence.
    - destruct (startup_raises w0 c (or_intror Hc)) as (e & w3 & He). congruence. }
  destruct (Hfree w w1 Hrun) as [Hup Hres].
  destruct (startup_returns env w Hup Hres)
    as (w1' & Hrun' & Hu & Hr & Hframe & Hlog & Hscript & Hue & Hre).
  assert (w1' = w1) as -> by congruence.
  repeat (split; [assumption|]).
  intros w0. split.
  - intros [Hup0 Hres0].
    destruct (startup_returns env w0 Hup0 Hres0) as (w2 & H2 & _). now exists w2.
  - intros [w2 H2]. exact (Hfree w0 w2 H2).
Qed.

Lemma folders_created_witness :
  (page_setup ;; startup) Sample.bare
  = (Returned tt, snd ((page_setup ;; startup) Sample.bare))
  /\ fs (run Sample.env Sample.bare) !! "uploads" = Some Dir
  /\ fs (run Sample.env Sample.bare) !! "results" = Some Dir.
Proof.
  assert (H : (page_setup ;; startup) Sample.bare
              = (Returned tt, snd ((page_setup ;; startup) Sample.bare)))
    by (vm_compute; reflexivity).
  split; [exact H|].
  destruct (folders_created Sample.env Sample.bare _ H)
    as (_ & _ & _ & _ & _ & Hu & Hr & _).
  split; assumption.
Defined.

(** ** Files over a session *)

Lemma session_cons {Box} (env : environment Box) envs w :
  session (env :: envs) w = session envs (run env w).
Proof. reflexivity. Qed.

(** Over any number of runs, the file system only grows, apart from the
    paths the runs write files at. *)
Lemma session_grows {Box} (envs : list (environment Box)) (w : world) :
  fs_grows (fun p => exists env, In env envs /\ written_by env p)
           w (session envs w).
Proof.
  revert w; induction envs as [|env envs IH]; intros w.
  - apply fs_grows_refl.
  - rewrite session_cons. eapply fs_grows_trans.
    + eapply fs_grows_weaken; [|apply (script_grows env w)].
      intros p Hp. exists env. split; [now left | exact Hp].
    + eapply fs_grows_weaken; [|apply IH].
      intros p (env' & Hin & Hp). exists env'. split; [now right | exact Hp].
Qed.

(** C6, as the code has it.  Over any sequence of runs no path disappears
    from the file system and a directory stays a directory: the script has
    no call that removes anything.  A file keeps its content through all
    runs whose two generated paths, [uploads/<name>] and
    [results/result_<name>], differ from its path; a run whose generated
    path coincides with it opens it for writing again.  One run opens the
    upload for writing at most once and saves a result at most once. *)
Theorem files_accumulate {Box} (envs : list (environment Box)) (w : world) :
  (forall p, is_Some (fs w !! p) -> is_Some (fs (session envs w) !! p))
  /\ (forall p, fs w !! p = Some Dir -> fs (session envs w) !! p = Some Dir)
  /\ (forall p c,
        fs w !! p = Some (File c) ->
        (forall env uf, In env envs -> uploaded_file env = Some uf ->
                        p <> input_path env uf /\ p <> result_path env uf) ->
        fs (session envs w) !! p = Some (File c))
  /\ (forall (env : environment Box) w0 evs,
        log (run env w0) = log w0 ++ evs ->
        (count is_call_open_wb evs <= 1)%nat /\ (count is_call_save evs <= 1)%nat).
Proof.
  pose proof (session_grows envs w) as Hgrow.
  split; [intros p; apply (Hgrow p)|].
  split; [intros p; apply (Hgrow p)|].
  split.
  - intros p c Hfile Hfresh. apply (Hgrow p); [|exact Hfile].
    intros (env & Hin & uf & Huf & Hp).
    destruct (Hfresh env uf Hin Huf) as [Hi Hr]. destruct Hp; contradiction.
  - intros env w0 evs Hevs.
    assert (Hopen : appends_at_most is_call_open_wb 1 (script env))
      by (apply script_appends; try reflexivity; intros uf; simpl; lia).
    assert (Hsave : appends_at_most is_call_save 1 (script env))
      by (apply script_appends; try reflexivity; intros uf; simpl; lia).
    destruct (Hopen w0) as (evs1 & Hlog1 & Hc1).
    destruct (Hsave w0) as (evs2 & Hlog2 & Hc2).
    unfold run in Hevs. rewrite Hevs in Hlog1, Hlog2.
    apply app_inv_head in Hlog1, Hlog2. subst evs1 evs2. now split.
Qed.

Lemma files_accumulate_witness :
  fs Sample.installed !! "/srv/app/damage-detector.pt" = Some (File [])
  /\ (forall env uf,
        In env [Sample.env; Sample.env_again] -> uploaded_file env = Some uf ->
        "/srv/app/damage-detector.pt" <> input_path env uf
        /\ "/srv/app/damage-detector.pt" <> result_path env uf)
  /\ fs (session [Sample.env; Sample.env_again] Sample.installed)
       !! "/srv/app/damage-detector.pt" = Some (File []).
Proof.
  assert (H1 : fs Sample.installed !! "/srv/app/damage-detector.pt" = Some (File []))
    by (vm_compute; reflexivity).
  assert (H2 : forall env uf,
        In env [Sample.env; Sample.env_again] -> uploaded_file env = Some uf ->
        "/srv/app/damage-detector.pt" <> input_path env uf
        /\ "/srv/app/damage-detector.pt" <> result_path env uf).
  { intros env uf [<-|[<-|[]]] Huf; injection Huf as <-;
      split; vm_compute; discriminate. }
  split; [exact H1|]. split; [exact H2|].
  exact (proj1 (proj2 (proj2
           (files_accumulate [Sample.env; Sample.env_again] Sample.installed)))
           _ _ H1 H2).
Defined.

(** A file the application wrote is written again: the second upload is
    given the name of the first, and its bytes take the place of the
    first's. *)
Lemma upload_overwritten :
  fs (session [Sample.env] Sample.bare)
    !! "uploads/00000000-0000-4000-8000-000000000000.JPG"
  = Some (File [xff; xd8; xff])
  /\ fs (session [Sample.env; Sample.env_again] Sample.bare)
       !! "uploads/00000000-0000-4000-8000-000000000000.JPG"
     = Some (File [x89; x50]).
Proof. split; vm_compute; reflexivity. Qed.

(** ** Only the first result counts *)

Lemma detect_same_first {Box} (env : environment Box)
      (y1 y2 : string -> outcome (Model Box)) uf w :
  (forall p, same_first_model (y1 p) (y2 p)) ->
  detect (with_YOLO env y1) uf w = detect (with_YOLO env y2) uf w.
Proof.
  intros Hsame. unfold detect.
  change (MODEL_PATH (with_YOLO env y1)) with (MODEL_PATH env).
  change (MODEL_PATH (with_YOLO env y2)) with (MODEL_PATH env).
  change (input_path (with_YOLO env y1) uf) with (input_path env uf).
  change (input_path (with_YOLO env y2) uf) with (input_path env uf).
  change (result_path (with_YOLO env y1) uf) with (result_path env uf).
  change (result_path (with_YOLO env y2) uf) with (result_path env uf).
  unfold st_image. cbn [with_YOLO YOLO Image_save render_image].
  specialize (Hsame (MODEL_PATH env)).
  destruct (y1 (MODEL_PATH env)) as [m1|e1], (y2 (MODEL_PATH env)) as [m2|e2];
    simpl in Hsame; try contradiction; [|now subst].
  specialize (Hsame (input_path env uf)). run_M.
  destruct (predict m1 (input_path env uf)) as [[|r1 l1]|e1],
           (predict m2 (input_path env uf)) as [[|r2 l2]|e2];
    simpl in Hsame; try contradiction; subst; reflexivity.
Qed.

(** C9. What a run leaves behind, in the file system and on the page, is
    the same for two detection libraries whose models return lists with the
    same first entry: the entries after the first change nothing. *)
Theorem first_result_only {Box} (env : environment Box)
        (y1 y2 : string -> outcome (Model Box)) (w : world) :
  (forall p, same_first_model (y1 p) (y2 p)) ->
  script (with_YOLO env y1) w = script (with_YOLO env y2) w.
Proof.
  intros Hsame.
  assert (Hanalyze : forall uf w0,
            analyze (with_YOLO env y1) uf w0 = analyze (with_YOLO env y2) uf w0).
  { intros uf w0. unfold analyze, with_spinner, try_except_Exception, bind.
    change (MODEL_PATH (with_YOLO env y1)) with (MODEL_PATH env).
    change (MODEL_PATH (with_YOLO env y2)) with (MODEL_PATH env).
    destruct (emit _ w0) as [[[]|e] w1]; [|reflexivity].
    destruct (exists_ (MODEL_PATH env) w1) as [[found|e] w2]; [|reflexivity].
    destruct (negb found); [reflexivity|].
    now rewrite (detect_same_first env y1 y2 uf w2 Hsame). }
  unfold script, main_content, upload_block, st_image, bind.
  cbn [with_YOLO uploaded_file button_clicked render_image].
  change (fun uf => input_path (with_YOLO env y1) uf)
    with (fun uf => input_path env uf).
  destruct (page_setup w) as [[[]|e] w1]; [|reflexivity].
  destruct (startup w1) as [[[]|e] w2]; [|reflexivity].
  destruct (sidebar w2) as [[[]|e] w3]; [|reflexivity].
  repeat match goal with
         | |- context [st ?c ?el ?w'] =>
             destruct (st c el w') as [[[]|?] ?]; [|reflexivity]
         end.
  destruct (uploaded_file env) as [uf|]; [|reflexivity].
  change (input_path (with_YOLO env y1) uf) with (input_path env uf).
  change (input_path (with_YOLO env y2) uf) with (input_path env uf).
  destruct (open_wb_write _ _ _) as [[[]|e] wu]; [|reflexivity].
  destruct (render_image env (input_path env uf)); [|reflexivity].
  repeat match goal with
         | |- context [st ?c ?el ?w'] =>
             destruct (st c el w') as [[[]|?] ?]; [|reflexivity]
         end.
  destruct (button_clicked env); [apply Hanalyze | reflexivity].
Qed.

Lemma first_result_only_witness :
  (forall p : string,
      same_first_model (Returned Sample.model : outcome (Model nat))
                       (Returned Sample.model'))
  /\ script (with_YOLO Sample.env (fun _ => Returned Sample.model)) Sample.installed
     = script (with_YOLO Sample.env (fun _ => Returned Sample.model')) Sample.installed.
Proof.
  assert (H : forall p : string,
             same_first_model (Returned Sample.model : outcome (Model nat))
                              (Returned Sample.model'))
    by (intros p q; reflexivity).
  split; [exact H|].
  exact (first_result_only Sample.env (fun _ => Returned Sample.model)
           (fun _ => Returned Sample.model') Sample.installed H).
Defined.

(** * Further properties of the script *)

(** ** What a run leaves alone *)

Lemma fs_same_refl (T : string -> Prop) (w : world) : fs_same_outside T w w.
Proof. intros p _. reflexivity. Qed.

Lemma fs_same_trans (T : string -> Prop) (w1 w2 w3 : world) :
  fs_same_outside T w1 w2 -> fs_same_outside T w2 w3 -> fs_same_outside T w1 w3.
Proof. intros H12 H23 p Hp. now rewrite (H23 p Hp), (H12 p Hp). Qed.

Lemma fs_same_log (T : string -> Prop) (w : world) (l : list event) :
  fs_same_outside T w {| fs := fs w; log := l |}.
Proof. intros p _. reflexivity. Qed.

Lemma fs_same_weaken (T T' : string -> Prop) (w w' : world) :
  (forall p, T p -> T' p) -> fs_same_outside T w w' -> fs_same_outside T' w w'.
Proof. intros HT H p Hp. apply H. intros HTp. apply Hp, HT, HTp. Qed.

Lemma write_file_same (T : string -> Prop) (p : string) (data : list byte) :
  T p -> keeps (fs_same_outside T) (write_file p data).
Proof.
  intros HT w q Hq. unfold write_file.
  destruct (open_wb_error p (fs w)); [reflexivity|].
  destruct (fs w !! p) as [[|c]|]; simpl; [reflexivity| |];
    apply lookup_insert_ne; intros ->; contradiction.
Qed.

Lemma makedirs_same (T : string -> Prop) (p : string) :
  T p -> keeps (fs_same_outside T) (makedirs_exist_ok p).
Proof.
  intros HT. unfold makedirs_exist_ok.
  apply keeps_bind; [apply fs_same_trans | apply keeps_emit, fs_same_log |].
  intros _ w q Hq. destruct (fs w !! p) as [[|c]|]; simpl; try reflexivity.
  apply lookup_insert_ne. intros ->. contradiction.
Qed.

Ltac same_side :=
  first [apply fs_same_refl | apply fs_same_log | apply fs_same_trans].

Ltac same_step :=
  first
    [ apply keeps_call; same_side
    | apply keeps_st_image; same_side
    | apply keeps_st; same_side
    | apply keeps_getitem0; same_side
    | apply keeps_exists; same_side
    | apply keeps_spinner; [same_side .. | ]
    | apply keeps_try; [same_side .. | | intros ?]
    | apply keeps_emit; same_side
    | apply keeps_ret; same_side
    | apply keeps_raise; same_side
    | match goal with |- keeps _ (if ?b then _ else _) => destruct b end
    | match goal with
      | |- keeps _ (bind _ _) => apply keeps_bind; [same_side .. | | intros ?]
      end ].

Lemma script_same {Box} (env : environment Box) :
  keeps (fs_same_outside (touched_by env)) (script env).
Proof.
  unfold script, page_setup, startup, sidebar, main_content.
  repeat same_step.
  - apply makedirs_same. now left.
  - apply makedirs_same. right. now left.
  - destruct (uploaded_file env) as [uf|] eqn:Hu; [|repeat same_step].
    unfold upload_block, open_wb_write. repeat same_step.
    + apply write_file_same. right. right. exists uf. auto.
    + unfold analyze. repeat same_step. unfold detect. repeat same_step.
      apply write_file_same. right. right. exists uf. auto.
Qed.

(** Every path the script builds is relative. *)
Lemma touched_by_relative {Box} (env : environment Box) (p : string) :
  touched_by env p -> isabs p = false.
Proof.
  intros [-> | [-> | (uf & _ & [-> | ->])]].
  - reflexivity.
  - reflexivity.
  - now rewrite input_path_eq.
  - reflexivity.
Qed.

(** X1. One run changes the file system at the two folders and at its two
    generated paths only: every other path holds after the run what it held
    before, and a path that was absent is absent still. *)
Theorem run_frame {Box} (env : environment Box) (w : world) (p : string) :
  p <> "uploads" -> p <> "results" ->
  (forall uf, uploaded_file env = Some uf ->
              p <> input_path env uf /\ p <> result_path env uf) ->
  fs (run env w) !! p = fs w !! p.
Proof.
  intros Hu Hr Hgen. apply (script_same env w).
  intros [-> | [-> | (uf & Huf & Hp)]];
    [exact (Hu eq_refl) | exact (Hr eq_refl) |].
  destruct (Hgen uf Huf) as [Hi Hres]. destruct Hp; contradiction.
Qed.

Lemma run_frame_witness :
  "notes.txt" <> "uploads" /\ "notes.txt" <> "results"
  /\ (forall uf, uploaded_file Sample.env = Some uf ->
                 "notes.txt" <> input_path Sample.env uf
                 /\ "notes.txt" <> result_path Sample.env uf)
  /\ fs (run Sample.env Sample.installed) !! "notes.txt" = None.
Proof.
  assert (H : forall uf, uploaded_file Sample.env = Some uf ->
                 "notes.txt" <> input_path Sample.env uf
                 /\ "notes.txt" <> result_path Sample.env uf).
  { intros uf Huf. injection Huf as <-. split; vm_compute; discriminate. }
  split; [discriminate|]. split; [discriminate|]. split; [exact H|].
  rewrite (run_frame Sample.env Sample.installed "notes.txt") by
      (discriminate || exact H).
  reflexivity.
Defined.

(** With the application directory absolute, so is the model path. *)
Lemma MODEL_PATH_absolute {Box} (env : environment Box) :
  isabs (app_dir env) = true -> isabs (MODEL_PATH env) = true.
Proof.
  unfold MODEL_PATH, os_path.join, isabs. intros Hdir.
  cbn [Str.startswith Ascii.eqb]. simpl.
  destruct (app_dir env) as [|c d]; [discriminate|].
  destruct ((String.length (String c d) =? 0)%nat
            || Str.endswith os_path.sep (String c d));
    rewrite string_app_cons; exact Hdir.
Qed.

(** ** Runs without a click *)

(** X3. With no file in the uploader a run that got past the folders draws the
    page and the note that results will appear after an upload, and that is
    all: it returns normally, the file system is as the folder creation left
    it, no button is drawn, and nothing is written, looked up or loaded. *)
Theorem idle_run {Box} (env : environment Box) (w w1 : world) :
  uploaded_file env = None ->
  (page_setup ;; startup) w = (Returned tt, w1) ->
  fst (script env w) = Returned tt
  /\ fs (run env w) = fs w1
  /\ last (log (run env w))
     = Some (shown Col2 (info "Results will appear here after upload."))
  /\ (forall evs, log (run env w) = log w1 ++ evs ->
        count is_button evs = 0%nat
        /\ count is_call_open_wb evs = 0%nat
        /\ count is_call_exists evs = 0%nat
        /\ count is_call_YOLO evs = 0%nat).
Proof.
  intros Hnone Hstart. unfold run.
  rewrite (script_after_startup env w w1 Hstart).
  unfold sidebar, main_content. rewrite Hnone. run_M.
  split; [reflexivity|]. split; [reflexivity|].
  split; [apply last_snoc|].
  intros evs Hevs. rewrite <- !app_assoc in Hevs.
  apply app_inv_head in Hevs. subst evs. repeat split.
Qed.

Lemma idle_run_witness :
  uploaded_file Cases.env_idle = None
  /\ (page_setup ;; startup) Sample.bare
     = (Returned tt, snd ((page_setup ;; startup) Sample.bare))
  /\ fs (run Cases.env_idle Sample.bare) = {[ "uploads" := Dir; "results" := Dir ]}.
Proof.
  assert (H : (page_setup ;; startup) Sample.bare
              = (Returned tt, snd ((page_setup ;; startup) Sample.bare)))
    by (vm_compute; reflexivity).
  split; [reflexivity|]. split; [exact H|].
  rewrite (proj1 (proj2 (idle_run Cases.env_idle Sample.bare _ eq_refl H))).
  vm_compute. reflexivity.
Defined.

(** X4. With an upload and no click, a run that got past the folders stores the
    upload, shows it, draws the button and stops there: the file system
    differs from what the folder creation left by the stored upload alone,
    and the model file is neither looked for nor loaded. *)
Theorem no_click_run {Box} (env : environment Box) (uf : UploadedFile)
        (w w1 : world) :
  uploaded_file env = Some uf ->
  button_clicked env = false ->
  (page_setup ;; startup) w = (Returned tt, w1) ->
  fs w1 !! input_path env uf <> Some Dir ->
  render_image env (input_path env uf) = Returned tt ->
  fst (script env w) = Returned tt
  /\ fs (run env w) = <[input_path env uf := File (getbuffer uf)]> (fs w1)
  /\ last (log (run env w)) = Some (shown Col1 (button "Analyze Damage 🔍"))
  /\ (forall evs, log (run env w) = log w1 ++ evs ->
        count is_call_open_wb evs = 1%nat
        /\ count is_call_exists evs = 0%nat
        /\ count is_call_YOLO evs = 0%nat
        /\ count is_call_save evs = 0%nat).
Proof.
  intros Hu Hclick Hstart Hdir Hview. unfold run.
  rewrite (script_after_startup env w w1 Hstart).
  unfold sidebar, main_content, upload_block. rewrite Hu, Hclick. run_M.
  rewrite (open_input_path env uf _ (proj1 (startup_dirs w w1 Hstart))).
  destruct (fs w1 !! input_path env uf) as [[|c]|] eqn:Hfs; [congruence| |];
    run_M; rewrite Hview; run_M;
    (split; [reflexivity|]); (split; [reflexivity|]);
    (split; [apply last_snoc|]);
    intros evs Hevs; rewrite <- !app_assoc in Hevs;
    apply app_inv_head in Hevs; subst evs; repeat split.
Qed.

Lemma no_click_run_witness :
  uploaded_file Sample.env_again = Some Sample.van
  /\ button_clicked Sample.env_again = false
  /\ (page_setup ;; startup) Sample.bare
     = (Returned tt, snd ((page_setup ;; startup) Sample.bare))
  /\ fs (run Sample.env_again Sample.bare)
     = {[ "uploads" := Dir; "results" := Dir;
          "uploads/00000000-0000-4000-8000-000000000000.JPG" := File [x89; x50] ]}.
Proof.
  assert (H : (page_setup ;; startup) Sample.bare
              = (Returned tt, snd ((page_setup ;; startup) Sample.bare)))
    by (vm_compute; reflexivity).
  split; [reflexivity|]. split; [reflexivity|]. split; [exact H|].
  rewrite (proj1 (proj2 (no_click_run Sample.env_again Sample.van Sample.bare _
                           eq_refl eq_refl H
                           ltac:(vm_compute; discriminate) eq_refl))).
  vm_compute. reflexivity.
Defined.

(** ** Failures outside the [try] *)

(** X5. When the uploaded picture cannot be shown, the exception from
    [st.image] ends the run, whether or not it is an instance of
    [Exception]: that call stands outside the [try].  The upload is on disk
    by then; no button is drawn, no error message is shown and nothing of
    the analysis runs. *)
Theorem upload_view_failure {Box} (env : environment Box) (uf : UploadedFile)
        (w w1 : world) (e : exception) :
  uploaded_file env = Some uf ->
  (page_setup ;; startup) w = (Returned tt, w1) ->
  fs w1 !! input_path env uf <> Some Dir ->
  render_image env (input_path env uf) = Raised e ->
  fst (script env w) = Raised e
  /\ fs (run env w) = <[input_path env uf := File (getbuffer uf)]> (fs w1)
  /\ last (log (run env w)) = Some (call_open_wb (input_path env uf))
  /\ (forall evs, log (run env w) = log w1 ++ evs ->
        count is_button evs = 0%nat
        /\ count is_error evs = 0%nat
        /\ count is_call_exists evs = 0%nat
        /\ count is_call_YOLO evs = 0%nat).
Proof.
  intros Hu Hstart Hdir Hview. unfold run.
  rewrite (script_after_startup env w w1 Hstart).
  unfold sidebar, main_content, upload_block. rewrite Hu. run_M.
  rewrite (open_input_path env uf _ (proj1 (startup_dirs w w1 Hstart))).
  destruct (fs w1 !! input_path env uf) as [[|c]|] eqn:Hfs; [congruence| |];
    run_M; rewrite Hview; run_M;
    (split; [reflexivity|]); (split; [reflexivity|]);
    (split; [apply last_snoc|]);
    intros evs Hevs; rewrite <- !app_assoc in Hevs;
    apply app_inv_head in Hevs; subst evs; repeat split.
Qed.

Lemma upload_view_failure_witness :
  uploaded_file Cases.env_no_view = Some Sample.car
  /\ (page_setup ;; startup) Sample.installed
     = (Returned tt, snd ((page_setup ;; startup) Sample.installed))
  /\ render_image Cases.env_no_view (input_path Cases.env_no_view Sample.car)
     = Raised Cases.OSError
  /\ fst (script Cases.env_no_view Sample.installed) = Raised Cases.OSError.
Proof.
  assert (H : (page_setup ;; startup) Sample.installed
              = (Returned tt, snd ((page_setup ;; startup) Sample.installed)))
    by (vm_compute; reflexivity).
  split; [reflexivity|]. split; [exact H|]. split; [reflexivity|].
  exact (proj1 (upload_view_failure Cases.env_no_view Sample.car
                  Sample.installed _ Cases.OSError eq_refl H
                  ltac:(vm_compute; discriminate) eq_refl)).
Defined.

(** X6. With a regular file named [uploads] or [results], every run ends in
    [FileExistsError] at the [makedirs] call for that name.  Nothing of the
    page is drawn, the upload is not stored, and except for an [uploads]
    directory made on the way to [results] the file system is as it was. *)
Theorem startup_failure {Box} (env : environment Box) (w : world) (c : list byte) :
  fs w !! "uploads" = Some (File c) \/ fs w !! "results" = Some (File c) ->
  exists p,
    (p = "uploads" \/ p = "results")
    /\ fst (script env w) = Raised (FileExistsError p)
    /\ last (log (run env w)) = Some (call_makedirs p)
    /\ (forall evs cn el, log (run env w) = log w ++ evs -> ~ In (shown cn el) evs)
    /\ (forall q, q <> "uploads" -> fs (run env w) !! q = fs w !! q).
Proof.
  intros Hfile. unfold run, script, page_setup, startup, UPLOAD_FOLDER, RESULT_FOLDER.
  run_M.
  destruct (fs w !! "uploads") as [[|c']|] eqn:Hu; run_M.
  - destruct Hfile as [Hfile|Hfile]; [discriminate|]. rewrite Hfile.
    exists "results". cbn [fst snd fs log].
    split; [now right|]. split; [reflexivity|]. split; [apply last_snoc|].
    split; [|reflexivity].
    intros evs cn el Hevs. rewrite <- !app_assoc in Hevs.
    apply app_inv_head in Hevs. subst evs. simpl. intuition discriminate.
  - exists "uploads". cbn [fst snd fs log].
    split; [now left|]. split; [reflexivity|]. split; [apply last_snoc|].
    split; [|reflexivity].
    intros evs cn el Hevs. rewrite <- !app_assoc in Hevs.
    apply app_inv_head in Hevs. subst evs. simpl. intuition discriminate.
  - destruct Hfile as [Hfile|Hfile]; [discriminate|].
    rewrite lookup_insert_ne by discriminate. rewrite Hfile.
    exists "results". cbn [fst snd fs log].
    split; [now right|]. split; [reflexivity|]. split; [apply last_snoc|].
    split.
    + intros evs cn el Hevs. rewrite <- !app_assoc in Hevs.
      apply app_inv_head in Hevs. subst evs. simpl. intuition discriminate.
    + intros q Hq. now rewrite lookup_insert_ne by congruence.
Qed.

Lemma startup_failure_witness :
  (fs Cases.occupied !! "uploads" = Some (File [x00])
   \/ fs Cases.occupied !! "results" = Some (File [x00]))
  /\ fst (script Sample.env Cases.occupied) = Raised (FileExistsError "results").
Proof.
  assert (H : fs Cases.occupied !! "uploads" = Some (File [x00])
              \/ fs Cases.occupied !! "results" = Some (File [x00]))
    by (right; vm_compute; reflexivity).
  split; [exact H|].
  destruct (startup_failure Sample.env Cases.occupied [x00] H)
    as (p & [-> | ->] & Hfst & _); [|exact Hfst].
  vm_compute in Hfst. discriminate.
Defined.

(** ** More on the click handler *)

(** X7. A model that returns an empty list: [results[0]] raises [IndexError],
    the handler reports it with Python's text for it, and nothing is plotted
    or saved. *)
Theorem empty_results_reported {Box} (env : environment Box) (uf : UploadedFile)
        (w : world) (m : Model Box) :
  is_Some (fs w !! MODEL_PATH env) ->
  YOLO env (MODEL_PATH env) = Returned m ->
  predict m (input_path env uf) = Returned [] ->
  analyze env uf w =
    (Returned tt,
     {| fs := fs w;
        log := log w ++
          [shown Col1 (spinner "Analyzing image for damages...");
           call_exists (MODEL_PATH env);
           call_YOLO (MODEL_PATH env);
           call_predict (input_path env uf);
           shown Col1 (error "Error during detection: list index out of range");
           spinner_done] |}).
Proof.
  intros Hsome Hm Hp. rewrite (analyze_present env uf w Hsome).
  rewrite (detect_raises_index env uf (try_entry env w) m Hm Hp). unfold try_entry.
  cbn [isinstance_Exception IndexError fs log].
  rewrite <- !app_assoc. reflexivity.
Qed.

Lemma empty_results_reported_witness :
  is_Some (fs Sample.installed !! MODEL_PATH Cases.env_empty)
  /\ count is_call_plot
       (log (snd (analyze Cases.env_empty Sample.car Sample.installed))) = 0%nat
  /\ count is_error
       (log (snd (analyze Cases.env_empty Sample.car Sample.installed))) = 1%nat.
Proof.
  assert (H : is_Some (fs Sample.installed !! MODEL_PATH Cases.env_empty))
    by (vm_compute; eauto).
  split; [exact H|].
  rewrite (empty_results_reported Cases.env_empty Sample.car Sample.installed
             {| predict := fun _ => Returned [] |} H eq_refl eq_refl).
  split; reflexivity.
Defined.

(** X8. With the [results] folder in place, when the result picture has been
    saved and showing it fails with an instance of [Exception], the handler
    reports that exception and returns normally; the saved file stays where
    it is, and no count is shown. *)
Theorem result_kept_on_view_failure {Box} (env : environment Box)
        (uf : UploadedFile) (w : world) m r rest arr data (e : exception) :
  is_Some (fs w !! MODEL_PATH env) ->
  YOLO env (MODEL_PATH env) = Returned m ->
  predict m (input_path env uf) = Returned (r :: rest) ->
  plot r = Returned arr ->
  Image_save env (Image_fromarray (reverse_last_axis arr)) (result_path env uf)
    = Returned data ->
  fs w !! "results" = Some Dir ->
  fs w !! result_path env uf <> Some Dir ->
  render_image env (result_path env uf) = Raised e ->
  isinstance_Exception e = true ->
  fst (analyze env uf w) = Returned tt
  /\ fs (snd (analyze env uf w)) = <[result_path env uf := File data]> (fs w)
  /\ (forall evs, log (snd (analyze env uf w)) = log w ++ evs ->
        In (shown Col1 (error ("Error during detection: " +:+ exc_str e))) evs
        /\ count is_verdict evs = 0%nat
        /\ count is_call_save evs = 1%nat).
Proof.
  intros Hsome Hm Hp Hplot Hsave Hpar Hdir Hview Hexc.
  rewrite (analyze_present env uf w Hsome).
  rewrite (detect_raises_render env uf (try_entry env w) m r rest arr data e
             Hm Hp Hplot Hsave Hpar Hdir Hview).
  rewrite Hexc. unfold try_entry. cbn [fst snd fs log].
  split; [reflexivity|]. split; [reflexivity|].
  intros evs Hevs. rewrite <- !app_assoc in Hevs.
  apply app_inv_head in Hevs. subst evs.
  split; [|split; reflexivity].
  simpl. do 7 right. left. reflexivity.
Qed.

Lemma result_kept_on_view_failure_witness :
  is_Some (fs Sample.ready !! MODEL_PATH Cases.env_no_result_view)
  /\ fs Sample.ready !! "results" = Some Dir
  /\ render_image Cases.env_no_result_view
       (result_path Cases.env_no_result_view Sample.car) = Raised Cases.OSError
  /\ fs (snd (analyze Cases.env_no_result_view Sample.car Sample.ready))
       !! "results/result_00000000-0000-4000-8000-000000000000.JPG"
     = Some (File [x03; x02; x01; x0c; x0b; x0a]).
Proof.
  assert (H : is_Some (fs Sample.ready !! MODEL_PATH Cases.env_no_result_view))
    by (vm_compute; eauto).
  assert (Hpar : fs Sample.ready !! "results" = Some Dir)
    by (vm_compute; reflexivity).
  split; [exact H|]. split; [exact Hpar|]. split; [reflexivity|].
  rewrite (proj1 (proj2
    (result_kept_on_view_failure Cases.env_no_result_view Sample.car
       Sample.ready Sample.model Sample.dented [Sample.clean] Sample.picture
       [x03; x02; x01; x0c; x0b; x0a] Cases.OSError
       H eq_refl eq_refl eq_refl eq_refl Hpar
       ltac:(vm_compute; discriminate) eq_refl eq_refl))).
  vm_compute. reflexivity.
Defined.

(** When the body of the [try] raises, it has shown neither a count nor an
    error. *)
Lemma detect_raised_quiet {Box} (env : environment Box) uf w e w' :
  detect env uf w = (Raised e, w') ->
  exists evs, log w' = log w ++ evs /\ count is_feedback evs = 0%nat.
Proof.
  unfold detect.
  destruct (YOLO env (MODEL_PATH env)) as [m|e1]; run_M.
  2:{ intros H. injection H as _ <-. eexists; split; reflexivity. }
  destruct (predict m (input_path env uf)) as [[|r rest]|e1]; run_M.
  1,3: intros H; injection H as _ <-; cbn [log]; rewrite <- ?app_assoc;
       eexists; split; reflexivity.
  destruct (plot r) as [arr|e1]; run_M.
  2:{ intros H. injection H as _ <-. cbn [log]. rewrite <- ?app_assoc.
      eexists; split; reflexivity. }
  destruct (Image_save env _ _) as [data|e1]; run_M.
  2:{ intros H. injection H as _ <-. cbn [log]. rewrite <- ?app_assoc.
      eexists; split; reflexivity. }
  destruct (open_wb_error (result_path env uf) (fs w)) as [e1|]; run_M.
  1:{ intros H. injection H as _ <-. cbn [log]. rewrite <- ?app_assoc.
      eexists; split; reflexivity. }
  destruct (fs w !! result_path env uf) as [[|c]|]; run_M.
  1:{ intros H. injection H as _ <-. cbn [log]. rewrite <- ?app_assoc.
      eexists; split; reflexivity. }
  all: destruct (render_image env (result_path env uf)) as [[]|e1]; run_M.
  2,4: intros H; injection H as _ <-; cbn [log]; rewrite <- ?app_assoc;
       eexists; split; reflexivity.
  all: destruct (0 <? length (boxes r))%nat; intros H; discriminate H.
Qed.

(** X9. An invocation of the click handler that returns has shown exactly one
    of the two kinds of feedback, a count or an error; one that ends in an
    exception has shown neither. *)
Theorem feedback_exactly_one {Box} (env : environment Box) (uf : UploadedFile)
        (w : world) (evs : list event) :
  log (snd (analyze env uf w)) = log w ++ evs ->
  (fst (analyze env uf w) = Returned tt -> count is_feedback evs = 1%nat)
  /\ (forall e, fst (analyze env uf w) = Raised e ->
                count is_feedback evs = 0%nat
                /\ isinstance_Exception e = false).
Proof.
  destruct (fs w !! MODEL_PATH env) as [n|] eqn:Hmodel.
  - rewrite (analyze_present env uf w (mk_is_Some _ _ Hmodel)).
    destruct (detect env uf (try_entry env w)) as [[[]|e] w1] eqn:Hd.
    + destruct (detect_returned_inv env uf _ _ Hd)
        as (m & r & rest & arr & data & _ & _ & _ & _ & _ & _ & ->).
      unfold try_entry. cbn [fst snd fs log]. intros Hevs.
      rewrite <- !app_assoc in Hevs. apply app_inv_head in Hevs. subst evs.
      split; [|discriminate]. intros _.
      destruct (0 <? length (boxes r))%nat; reflexivity.
    + destruct (detect_raised_quiet env uf _ _ _ Hd) as (evs1 & Hlog1 & Hq).
      destruct (isinstance_Exception e) eqn:Hexc; cbn [fst snd fs log];
        rewrite Hlog1; unfold try_entry; cbn [log]; intros Hevs;
        rewrite <- !app_assoc in Hevs; apply app_inv_head in Hevs; subst evs.
      * split; [|discriminate]. intros _.
        change (?a :: ?b :: ?l) with ([a; b] ++ l).
        rewrite !count_app, Hq. reflexivity.
      * split; [discriminate|]. intros e' He'. injection He' as <-.
        split; [|exact Hexc].
        change (?a :: ?b :: ?l) with ([a; b] ++ l).
        rewrite !count_app, Hq. reflexivity.
  - unfold analyze. run_M. rewrite Hmodel.
    rewrite bool_decide_eq_false_2 by (intros [? ?]; discriminate).
    cbn [negb]. run_M. intros Hevs.
    rewrite <- !app_assoc in Hevs. apply app_inv_head in Hevs. subst evs.
    split; [reflexivity | discriminate].
Qed.

Lemma feedback_exactly_one_witness :
  log (snd (analyze Sample.env Sample.car Sample.installed))
  = log Sample.installed ++ log (snd (analyze Sample.env Sample.car Sample.installed))
  /\ count is_feedback (log (snd (analyze Sample.env Sample.car Sample.installed)))
     = 1%nat.
Proof.
  assert (H : log (snd (analyze Sample.env Sample.car Sample.installed))
              = log Sample.installed
                ++ log (snd (analyze Sample.env Sample.car Sample.installed)))
    by reflexivity.
  split; [exact H|].
  apply (proj1 (feedback_exactly_one Sample.env Sample.car Sample.installed _ H)).
  vm_compute. reflexivity.
Defined.

Lemma count_In (f : event -> bool) (ev : event) (l : list event) :
  In ev l -> f ev = true -> (1 <= count f l)%nat.
Proof.
  unfold count. induction l as [|x l IH]; simpl; [contradiction|].
  intros [->|Hin] Hf.
  - rewrite Hf. simpl. lia.
  - destruct (f x); simpl; [lia | now apply IH].
Qed.

(** X10. With something at the model path, every click loads the model, once:
    nothing of an earlier load is kept for the next click. *)
Theorem model_loaded_once {Box} (env : environment Box) (uf : UploadedFile)
        (w : world) (evs : list event) :
  is_Some (fs w !! MODEL_PATH env) ->
  log (snd (analyze env uf w)) = log w ++ evs ->
  count is_call_YOLO evs = 1%nat /\ count is_call_exists evs = 1%nat.
Proof.
  intros Hsome Hevs.
  destruct (analyze_loads env uf w Hsome) as (evs1 & Hlog1 & Hin).
  rewrite Hevs in Hlog1. apply app_inv_head in Hlog1. subst evs1.
  assert (Hle : forall f, (forall c el, f (shown c el) = false) ->
            (weight f spinner_done + weight f (call_exists (MODEL_PATH env))
             + weight f (call_YOLO (MODEL_PATH env))
             + weight f (call_predict (input_path env uf))
             + weight f call_plot
             + weight f (call_save (result_path env uf)) <= 1)%nat ->
            (count f evs <= 1)%nat).
  { intros f Hf Hb.
    destruct (analyze_appends f env uf Hf w) as (evs' & Hlog' & Hc').
    rewrite Hevs in Hlog'. apply app_inv_head in Hlog'. subst evs'. lia. }
  split.
  - apply Nat.le_antisymm.
    + apply Hle; intros; reflexivity || (simpl; lia).
    + now apply (count_In is_call_YOLO _ _ Hin).
  - apply Nat.le_antisymm.
    + apply Hle; intros; reflexivity || (simpl; lia).
    + rewrite (analyze_present env uf w Hsome) in Hevs.
      destruct (detect_log_head env uf (try_entry env w)) as (t & Ht).
      apply (count_In is_call_exists (call_exists (MODEL_PATH env))); [|reflexivity].
      destruct (detect env uf _) as [[[]|e] w1]; cbn [snd log] in *;
        [|destruct (isinstance_Exception e)]; cbn [snd log] in Hevs;
        rewrite Ht in Hevs; unfold try_entry in Hevs; cbn [log] in Hevs;
        rewrite <- !app_assoc in Hevs; apply app_inv_head in Hevs; subst evs;
        simpl; auto.
Qed.

Lemma model_loaded_once_witness :
  is_Some (fs Sample.installed !! MODEL_PATH Sample.env_failing)
  /\ count is_call_YOLO
       (log (snd (analyze Sample.env_failing Sample.car Sample.installed)))
     = 1%nat.
Proof.
  assert (H : is_Some (fs Sample.installed !! MODEL_PATH Sample.env_failing))
    by (vm_compute; eauto).
  split; [exact H|].
  apply (model_loaded_once Sample.env_failing Sample.car Sample.installed _ H).
  reflexivity.
Defined.

(** ** The same upload over two runs *)

(** A run that finds no regular file at the folder names and no directory at
    the path it generates leaves the upload at that path, however the run
    ends after the write. *)
Lemma run_stores_upload {Box} (env : environment Box) (uf : UploadedFile) (w : world) :
  uploaded_file env = Some uf ->
  (forall c, fs w !! UPLOAD_FOLDER <> Some (File c)) ->
  (forall c, fs w !! RESULT_FOLDER <> Some (File c)) ->
  fs w !! input_path env uf <> Some Dir ->
  fs (run env w) !! input_path env uf = Some (File (getbuffer uf))
  /\ fs (run env w) !! UPLOAD_FOLDER = Some Dir
  /\ fs (run env w) !! RESULT_FOLDER = Some Dir.
Proof.
  intros Hu Hup Hres Hdir.
  destruct (startup_returns env w Hup Hres)
    as (w1 & _ & Hu1 & _ & Hframe & _ & Hscript & Hud & Hrd).
  split; [|split; assumption].
  unfold run. rewrite Hscript. unfold sidebar, main_content. rewrite Hu. run_M.
  apply upload_block_stores; cbn [fs]; [exact Hu1|].
  destruct (input_path_not_folder env uf) as [Hn1 Hn2].
  now rewrite Hframe.
Qed.

(** X11. Streamlit runs the script again on every interaction, so an upload that
    stays in the uploader is stored again by the next run: after two runs
    with the same upload whose UUID strings differ, two files hold its
    bytes, and the first is as the first run left it. *)
Theorem rerun_stores_again {Box} (env1 env2 : environment Box) (uf : UploadedFile)
        (w : world) :
  uploaded_file env1 = Some uf ->
  uploaded_file env2 = Some uf ->
  uuid.str (uuid.uuid4 (urandom16 env1)) <> uuid.str (uuid.uuid4 (urandom16 env2)) ->
  (forall c, fs w !! UPLOAD_FOLDER <> Some (File c)) ->
  (forall c, fs w !! RESULT_FOLDER <> Some (File c)) ->
  fs w !! input_path env1 uf <> Some Dir ->
  fs w !! input_path env2 uf <> Some Dir ->
  input_path env1 uf <> input_path env2 uf
  /\ fs (session [env1; env2] w) !! input_path env1 uf = Some (File (getbuffer uf))
  /\ fs (session [env1; env2] w) !! input_path env2 uf = Some (File (getbuffer uf)).
Proof.
  intros Hu1 Hu2 Hne Hup Hres Hd1 Hd2.
  assert (Hnames : unique_filename env1 uf <> unique_filename env2 uf).
  { intros Heq. apply Hne. now destruct (unique_filename_inj _ _ _ _ Heq). }
  assert (Hpaths : input_path env1 uf <> input_path env2 uf).
  { rewrite (input_path_eq env1 uf), (input_path_eq env2 uf). intros Heq.
    apply (string_app_eq_same_length "uploads/" "uploads/") in Heq;
      [|reflexivity]. now destruct Heq. }
  split; [exact Hpaths|].
  destruct (run_stores_upload env1 uf w Hu1 Hup Hres Hd1) as (Hf1 & Hud & Hrd).
  change (session [env1; env2] w) with (run env2 (run env1 w)).
  assert (Hd2' : fs (run env1 w) !! input_path env2 uf <> Some Dir).
  { unfold run. rewrite (script_same env1 w (input_path env2 uf)); [exact Hd2|].
    destruct (input_path_not_folder env2 uf) as [Hn1 Hn2].
    intros [Hp | [Hp | (uf' & Huf' & Hp)]]; [contradiction | contradiction |].
    rewrite Hu1 in Huf'. injection Huf' as <-.
    destruct Hp as [Hp|Hp]; [congruence|].
    now apply input_path_ne_result_path in Hp. }
  destruct (run_stores_upload env2 uf (run env1 w) Hu2) as (Hf2 & _);
    [intros c; rewrite Hud; discriminate
    |intros c; rewrite Hrd; discriminate
    |exact Hd2'|].
  split; [|exact Hf2].
  apply (script_grows env2 (run env1 w) (input_path env1 uf)); [|exact Hf1].
  intros (uf' & Huf' & Hp). rewrite Hu2 in Huf'. injection Huf' as <-.
  destruct Hp as [Hp|Hp]; [contradiction|].
  now apply input_path_ne_result_path in Hp.
Qed.

Lemma rerun_stores_again_witness :
  uuid.str (uuid.uuid4 (urandom16 Sample.env))
    <> uuid.str (uuid.uuid4 (urandom16 Cases.env_rerun))
  /\ fs (session [Sample.env; Cases.env_rerun] Sample.installed)
       !! "uploads/00000000-0000-4000-8000-000000000000.JPG"
     = Some (File [xff; xd8; xff])
  /\ fs (session [Sample.env; Cases.env_rerun] Sample.installed)
       !! "uploads/00000000-0000-4000-8000-000000000001.JPG"
     = Some (File [xff; xd8; xff]).
Proof.
  assert (Hne : uuid.str (uuid.uuid4 (urandom16 Sample.env))
                <> uuid.str (uuid.uuid4 (urandom16 Cases.env_rerun)))
    by (vm_compute; discriminate).
  assert (A1 : forall c, fs Sample.installed !! UPLOAD_FOLDER <> Some (File c))
    by (intros c; vm_compute; discriminate).
  assert (A2 : forall c, fs Sample.installed !! RESULT_FOLDER <> Some (File c))
    by (intros c; vm_compute; discriminate).
  assert (A3 : fs Sample.installed !! input_path Sample.env Sample.car <> Some Dir)
    by (vm_compute; discriminate).
  assert (A4 : fs Sample.installed !! input_path Cases.env_rerun Sample.car
               <> Some Dir) by (vm_compute; discriminate).
  split; [exact Hne|].
  pose proof (rerun_stores_again Sample.env Cases.env_rerun Sample.car
                Sample.installed eq_refl eq_refl Hne A1 A2 A3 A4) as (_ & H1 & H2).
  split; [exact H1 | exact H2].
Defined.

(** ** Whole runs with a click *)

(** The body of the [try] when every call in it returns. *)
Lemma detect_success {Box} (env : environment Box) (uf : UploadedFile)
      (w : world) m r rest arr data :
  YOLO env (MODEL_PATH env) = Returned m ->
  predict m (input_path env uf) = Returned (r :: rest) ->
  plot r = Returned arr ->
  Image_save env (Image_fromarray (reverse_last_axis arr))
             (result_path env uf) = Returned data ->
  fs w !! RESULT_FOLDER = Some Dir ->
  fs w !! result_path env uf <> Some Dir ->
  render_image env (result_path env uf) = Returned tt ->
  detect env uf w =
    (Returned tt,
     {| fs := <[result_path env uf := File data]> (fs w);
        log := log w ++
          [call_YOLO (MODEL_PATH env);
           call_predict (input_path env uf);
           call_plot;
           call_save (result_path env uf);
           shown Col2 (subheader "2. Detection Results");
           shown Col2 (image (result_path env uf) "Detected Damages");
           shown Col2
             (if (0 <? length (boxes r))%nat
              then success ("Detected " +:+ str_of_len (length (boxes r))
                            +:+ " issue(s)!")
              else info "No visible damage detected.")] |}).
Proof.
  intros Hm Hp Hplot Hsave Hpar Hdir Hview.
  pose proof (detect_returns env uf w m r rest arr data
                Hm Hp Hplot Hsave Hpar Hdir Hview) as Hfst.
  destruct (detect env uf w) as [o w'] eqn:Hd. simpl in Hfst. subst o.
  destruct (detect_returned_inv env uf w w' Hd)
    as (m' & r' & rest' & arr' & data' & Hm' & Hp' & Hplot' & Hsave' & _ & _ & ->).
  rewrite Hm in Hm'. injection Hm' as <-.
  rewrite Hp in Hp'. injection Hp' as <- <-.
  rewrite Hplot in Hplot'. injection Hplot' as <-.
  rewrite Hsave in Hsave'. injection Hsave' as <-. reflexivity.
Qed.

(** The click handler when nothing sits at the model path. *)
Lemma analyze_missing {Box} (env : environment Box) (uf : UploadedFile) (w : world) :
  fs w !! MODEL_PATH env = None ->
  analyze env uf w =
    (Returned tt,
     {| fs := fs w;
        log := log w ++
          [shown Col1 (spinner "Analyzing image for damages...");
           call_exists (MODEL_PATH env);
           shown Col1 (error (model_missing_message env));
           spinner_done] |}).
Proof.
  intros Hnone. unfold analyze. run_M. rewrite Hnone.
  rewrite bool_decide_eq_false_2 by (intros [? ?]; discriminate).
  cbn [negb]. run_M. rewrite <- !app_assoc. reflexivity.
Qed.

(** X12. A whole run in which everything goes well: upload, click, model
    present, every call returning.  The run returns normally, the file
    system gains the stored upload and the result image and nothing else,
    exactly one count message and no error is shown, and the model is loaded
    once. *)
Theorem successful_run {Box} (env : environment Box) (uf : UploadedFile)
        (w w1 : world) m r rest arr data :
  uploaded_file env = Some uf ->
  button_clicked env = true ->
  (page_setup ;; startup) w = (Returned tt, w1) ->
  fs w1 !! input_path env uf <> Some Dir ->
  render_image env (input_path env uf) = Returned tt ->
  is_Some (fs w1 !! MODEL_PATH env) ->
  YOLO env (MODEL_PATH env) = Returned m ->
  predict m (input_path env uf) = Returned (r :: rest) ->
  plot r = Returned arr ->
  Image_save env (Image_fromarray (reverse_last_axis arr))
             (result_path env uf) = Returned data ->
  fs w1 !! result_path env uf <> Some Dir ->
  render_image env (result_path env uf) = Returned tt ->
  fst (script env w) = Returned tt
  /\ fs (run env w)
     = <[result_path env uf := File data]>
         (<[input_path env uf := File (getbuffer uf)]> (fs w1))
  /\ last (log (run env w)) = Some spinner_done
  /\ (forall evs, log (run env w) = log w1 ++ evs ->
        count is_verdict evs = 1%nat
        /\ count is_error evs = 0%nat
        /\ count is_call_YOLO evs = 1%nat
        /\ count is_call_open_wb evs = 1%nat
        /\ count is_call_save evs = 1%nat).
Proof.
  intros Hu Hclick Hstart Hdir Hview Hmodel Hm Hp Hplot Hsave Hrdir Hrview.
  unfold run. rewrite (script_after_startup env w w1 Hstart).
  destruct (startup_dirs w w1 Hstart) as [Hupd Hresd].
  unfold sidebar, main_content, upload_block. rewrite Hu, Hclick. run_M.
  rewrite (open_input_path env uf _ Hupd). run_M.
  assert (Hw : forall l,
            (match fs w1 !! input_path env uf with
             | Some Dir => (Raised (IsADirectoryError (input_path env uf)),
                            {| fs := fs w1; log := l |})
             | _ => (Returned (),
                     {| fs := <[input_path env uf := File (getbuffer uf)]> (fs w1);
                        log := l |})
             end : outcome unit * world)
            = (Returned (),
               {| fs := <[input_path env uf := File (getbuffer uf)]> (fs w1);
                  log := l |})).
  { intros l. destruct (fs w1 !! input_path env uf) as [[|c]|];
      [congruence|reflexivity|reflexivity]. }
  rewrite Hw. run_M. rewrite Hview. run_M.
  set (w2 := {| fs := <[input_path env uf := File (getbuffer uf)]> (fs w1);
                log := _ |}).
  assert (Hmodel2 : is_Some (fs w2 !! MODEL_PATH env)).
  { subst w2. cbn [fs].
    destruct (decide (input_path env uf = MODEL_PATH env)) as [<-|Hne].
    - rewrite lookup_insert_eq. eauto.
    - now rewrite lookup_insert_ne. }
  rewrite (analyze_present env uf w2 Hmodel2).
  assert (Hrdir2 : fs (try_entry env w2) !! result_path env uf <> Some Dir).
  { subst w2. cbn [try_entry fs].
    rewrite lookup_insert_ne by apply input_path_ne_result_path. exact Hrdir. }
  assert (Hpar2 : fs (try_entry env w2) !! RESULT_FOLDER = Some Dir).
  { subst w2. cbn [try_entry fs].
    rewrite lookup_insert_ne by exact (proj2 (input_path_not_folder env uf)).
    exact Hresd. }
  rewrite (detect_success env uf (try_entry env w2) m r rest arr data
             Hm Hp Hplot Hsave Hpar2 Hrdir2 Hrview).
  subst w2. cbn [try_entry fst snd fs log].
  split; [reflexivity|]. split; [reflexivity|]. split; [apply last_snoc|].
  intros evs Hevs. rewrite <- !app_assoc in Hevs.
  apply app_inv_head in Hevs. subst evs.
  destruct (0 <? length (boxes r))%nat; repeat split.
Qed.

Lemma successful_run_witness :
  (page_setup ;; startup) Sample.installed
  = (Returned tt, snd ((page_setup ;; startup) Sample.installed))
  /\ fs (run Sample.env Sample.installed)
     = {[ "/srv/app/damage-detector.pt" := File [];
          "uploads" := Dir; "results" := Dir;
          "uploads/00000000-0000-4000-8000-000000000000.JPG" := File [xff; xd8; xff];
          "results/result_00000000-0000-4000-8000-000000000000.JPG"
            := File [x03; x02; x01; x0c; x0b; x0a] ]}.
Proof.
  assert (H : (page_setup ;; startup) Sample.installed
              = (Returned tt, snd ((page_setup ;; startup) Sample.installed)))
    by (vm_compute; reflexivity).
  assert (A1 : fs (snd ((page_setup ;; startup) Sample.installed))
                 !! input_path Sample.env Sample.car <> Some Dir)
    by (vm_compute; discriminate).
  assert (A2 : is_Some (fs (snd ((page_setup ;; startup) Sample.installed))
                          !! MODEL_PATH Sample.env)) by (vm_compute; eauto).
  assert (A3 : fs (snd ((page_setup ;; startup) Sample.installed))
                 !! result_path Sample.env Sample.car <> Some Dir)
    by (vm_compute; discriminate).
  split; [exact H|].
  rewrite (proj1 (proj2
    (successful_run Sample.env Sample.car Sample.installed _
       Sample.model Sample.dented [Sample.clean] Sample.picture
       [x03; x02; x01; x0c; x0b; x0a]
       eq_refl eq_refl H A1 eq_refl A2 eq_refl eq_refl eq_refl eq_refl A3 eq_refl))).
  vm_compute. reflexivity.
Defined.

(** X13. A whole run with upload and click when the model file is missing and the
    application directory is absolute: storing the upload does not put
    anything at the model path, so the run ends normally with the "Model
    file not found" message as its one error, the upload stored, and no
    model call. *)
Theorem missing_model_run {Box} (env : environment Box) (uf : UploadedFile)
        (w w1 : world) :
  uploaded_file env = Some uf ->
  button_clicked env = true ->
  (page_setup ;; startup) w = (Returned tt, w1) ->
  fs w1 !! input_path env uf <> Some Dir ->
  render_image env (input_path env uf) = Returned tt ->
  isabs (app_dir env) = true ->
  fs w1 !! MODEL_PATH env = None ->
  fst (script env w) = Returned tt
  /\ fs (run env w) = <[input_path env uf := File (getbuffer uf)]> (fs w1)
  /\ (forall evs, log (run env w) = log w1 ++ evs ->
        In (shown Col1 (error (model_missing_message env))) evs
        /\ count is_error evs = 1%nat
        /\ count is_call_YOLO evs = 0%nat
        /\ count is_call_predict evs = 0%nat
        /\ count is_call_save evs = 0%nat).
Proof.
  intros Hu Hclick Hstart Hdir Hview Habs Hnone.
  unfold run. rewrite (script_after_startup env w w1 Hstart).
  unfold sidebar, main_content, upload_block. rewrite Hu, Hclick. run_M.
  assert (Hne : input_path env uf <> MODEL_PATH env).
  { intros Heq. apply MODEL_PATH_absolute in Habs. rewrite <- Heq in Habs.
    rewrite (touched_by_relative env (input_path env uf)) in Habs;
      [discriminate|]. right. right. exists uf. auto. }
  rewrite (open_input_path env uf _ (proj1 (startup_dirs w w1 Hstart))).
  destruct (fs w1 !! input_path env uf) as [[|c]|] eqn:Hfs; [congruence| |];
    run_M; rewrite Hview; run_M;
    (rewrite analyze_missing
      by (cbn [fs]; rewrite lookup_insert_ne by exact Hne; exact Hnone));
    cbn [fst snd fs log];
    (split; [reflexivity|]); (split; [reflexivity|]);
    intros evs Hevs; rewrite <- !app_assoc in Hevs;
    apply app_inv_head in Hevs; subst evs;
    (split; [simpl; do 13 right; left; reflexivity | repeat split]).
Qed.

Lemma missing_model_run_witness :
  (page_setup ;; startup) Sample.bare
  = (Returned tt, snd ((page_setup ;; startup) Sample.bare))
  /\ isabs (app_dir Sample.env) = true
  /\ count is_error (log (run Sample.env Sample.bare)) = 1%nat
  /\ fs (run Sample.env Sample.bare)
     = {[ "uploads" := Dir; "results" := Dir;
          "uploads/00000000-0000-4000-8000-000000000000.JPG"
            := File [xff; xd8; xff] ]}.
Proof.
  assert (H : (page_setup ;; startup) Sample.bare
              = (Returned tt, snd ((page_setup ;; startup) Sample.bare)))
    by (vm_compute; reflexivity).
  assert (A1 : fs (snd ((page_setup ;; startup) Sample.bare))
                 !! input_path Sample.env Sample.car <> Some Dir)
    by (vm_compute; discriminate).
  assert (A2 : fs (snd ((page_setup ;; startup) Sample.bare))
                 !! MODEL_PATH Sample.env = None) by (vm_compute; reflexivity).
  split; [exact H|]. split; [reflexivity|].
  split; [vm_compute; reflexivity|].
  rewrite (proj1 (proj2
    (missing_model_run Sample.env Sample.car Sample.bare _
       eq_refl eq_refl H A1 eq_refl eq_refl A2))).
  vm_compute. reflexivity.
Defined.

(** ** Names of results *)

(** X14. The result path fixes the upload path and the other way round: two
    uploads have one result path exactly when they have one stored name, so
    a result overwrites another only where the uploads themselves
    collide. *)
Theorem result_path_follows_upload {Box} (env env' : environment Box)
        (uf uf' : UploadedFile) :
  (result_path env uf = result_path env' uf'
   <-> input_path env uf = input_path env' uf')
  /\ (input_path env uf = input_path env' uf'
      <-> unique_filename env uf = unique_filename env' uf')
  /\ String.length (unique_filename env uf)
     = (36 + String.length (file_ext uf))%nat.
Proof.
  assert (Hin : input_path env uf = input_path env' uf'
                <-> unique_filename env uf = unique_filename env' uf').
  { rewrite (input_path_eq env uf), (input_path_eq env' uf'). split.
    - intros Heq.
      now apply (string_app_eq_same_length "uploads/" "uploads/") in Heq.
    - now intros ->. }
  split; [|split; [exact Hin|]].
  - rewrite Hin, (result_path_eq env uf), (result_path_eq env' uf'). split.
    + intros Heq.
      now apply (string_app_eq_same_length "results/result_" "results/result_") in Heq.
    + now intros ->.
  - unfold unique_filename. now rewrite string_length_app, uuid_str_length.
Qed.
